(** * data_processing_toolkit: the collater and its spreadsheet helpers

    A shallow embedding of the aggregation code of the toolkit
    ([collater.py], [excel_formulas.py], [file_handler.py], [constants.py])
    together with the library calls it is built on (the [xlsxwriter.utility]
    address functions and the part of an [openpyxl] worksheet that the code
    touches), followed by the properties of the layout, the cell reader, the
    address functions and the point-analysis index.

    Python integers are unbounded: they are [Z].  Python strings are
    [string] (one [ascii] per character).  A call that can raise returns a
    [result]. *)

From Stdlib Require Import ZArith NArith Ascii String List Lia.
From Stdlib Require Import DecimalString DecimalZ DecimalN DecimalPos.
From stdpp Require Import base option list gmap strings.

Local Open Scope Z_scope.

(** ** Exceptions *)

Inductive exn : Type :=
  | AttributeError
  | TypeError
  | ValueError
  | IndexError
  | KeyError.

Inductive result (A : Type) : Type :=
  | Ok (a : A)
  | Raise (e : exn).
Arguments Ok {A} a.
Arguments Raise {A} e.

#[global] Instance result_ret : MRet result := fun A a => Ok a.
#[global] Instance result_bind : MBind result := fun A B f c =>
  match c with
  | Ok a => f a
  | Raise e => Raise e
  end.

(** [try: c except: h], with a bare [except]. *)
Definition try_except {A} (c : result A) (h : result A) : result A :=
  match c with
  | Ok a => Ok a
  | Raise _ => h
  end.

Definition raises {A} (c : result A) : Prop := exists e, c = Raise e.
Definition returns {A} (c : result A) : Prop := exists a, c = Ok a.

(** ** Python string primitives *)

Module Py.

Definition ord (c : ascii) : Z := Z.of_N (N_of_ascii c).
Definition chr (n : Z) : ascii := ascii_of_N (Z.to_N n).

(** The double-quote character, as it appears inside the f-strings. *)
Definition dquote : string := String (ascii_of_N 34) EmptyString.

(** [str(n)] for an integer. *)
Definition str_of_int (n : Z) : string := NilZero.string_of_int (Z.to_int n).

(** [int(s)] on the strings that the pattern [\d+] yields: ASCII digits
    only, leading zeros allowed, the empty string refused. *)
Definition int_of_digits (s : string) : result Z :=
  match NilZero.uint_of_string s with
  | Some d => Ok (Z.of_N (N.of_uint d))
  | None => Raise ValueError
  end.

(** [c in s] for a one-character [c]. *)
Fixpoint contains (c : ascii) (s : string) : bool :=
  match s with
  | EmptyString => false
  | String a s' => if Ascii.eqb a c then true else contains c s'
  end.

(** [s.split(sep)] for a one-character separator. *)
Fixpoint split (sep : ascii) (s : string) : list string :=
  match s with
  | EmptyString => [EmptyString]
  | String a s' =>
      if Ascii.eqb a sep then EmptyString :: split sep s'
      else match split sep s' with
           | h :: t => String a h :: t
           | [] => [String a EmptyString]
           end
  end.

(** [l[i]]: a list index out of range raises [IndexError]. *)
Definition index {A} (l : list A) (i : nat) : result A :=
  match l !! i with
  | Some x => Ok x
  | None => Raise IndexError
  end.

(** [s.lstrip(c)], [s.rstrip(c)] and [s.strip(c)] for a one-character set. *)
Fixpoint lstrip (c : ascii) (s : string) : string :=
  match s with
  | EmptyString => EmptyString
  | String a s' => if Ascii.eqb a c then lstrip c s' else s
  end.

Fixpoint rstrip (c : ascii) (s : string) : string :=
  match s with
  | EmptyString => EmptyString
  | String a s' =>
      match rstrip c s' with
      | EmptyString => if Ascii.eqb a c then EmptyString else String a EmptyString
      | r => String a r
      end
  end.

Definition strip (c : ascii) (s : string) : string := rstrip c (lstrip c s).

(** [range(lo, hi)]. *)
Definition range (lo hi : Z) : list Z := seqZ lo (hi - lo).

(** [all(p(c) for c in s)]. *)
Fixpoint all_chars (p : ascii -> bool) (s : string) : bool :=
  match s with
  | EmptyString => true
  | String a s' => p a && all_chars p s'
  end.

(** [l.index(x)] on a list of strings, when [x] is in the list. *)
Fixpoint list_index (x : string) (l : list string) : result Z :=
  match l with
  | [] => Raise ValueError
  | y :: l' => if String.eqb y x then Ok 0
               else i ← list_index x l'; Ok (1 + i)
  end.

(** A value or [None], formatted by an f-string. *)
Definition fmt (o : option string) : string :=
  match o with
  | Some s => s
  | None => "None"
  end.

End Py.

(** ** [xlsxwriter.utility]

    The three address functions the toolkit imports.  They are library code;
    they are written out here because the address round trip is a property
    of them.  [int((col_num - 1) / 26)] goes through a float in the library;
    it is the integer quotient for every column below [2^53]. *)

Module Xlsx.

Definition is_upper (c : ascii) : bool :=
  (65 <=? Py.ord c) && (Py.ord c <=? 90).
Definition is_digit (c : ascii) : bool :=
  (48 <=? Py.ord c) && (Py.ord c <=? 57).

(** The [while col_num:] loop of [xl_col_to_name].  Each round divides
    [col_num] by 26, so [fuel] rounds are enough as soon as
    [col_num < 26 ^ fuel]. *)
Fixpoint col_letters (fuel : nat) (col_num : Z) (col_str : string) : string :=
  match fuel with
  | O => col_str
  | S k =>
      if col_num =? 0 then col_str
      else
        let remainder := col_num mod 26 in
        let remainder := if remainder =? 0 then 26 else remainder in
        let col_letter := Py.chr (Py.ord "A" + remainder - 1) in
        col_letters k ((col_num - 1) / 26) (String col_letter col_str)
  end.

Definition col_fuel (col_num : Z) : nat := S (Z.to_nat (Z.log2 col_num)).

Definition xl_col_to_name (col : Z) (col_abs : bool) : option string :=
  if col <? 0 then None
  else
    let col_num := col + 1 in
    let col_abs := if col_abs then "$" else "" in
    Some (col_abs +:+ col_letters (col_fuel col_num) col_num "").

Definition xl_rowcol_to_cell (row col : Z) (row_abs col_abs : bool)
  : option string :=
  if row <? 0 then None
  else if col <? 0 then None
  else
    let row := row + 1 in
    let row_abs := if row_abs then "$" else "" in
    col_str ← xl_col_to_name col col_abs;
    Some (col_str +:+ row_abs +:+ Py.str_of_int row).

(** The longest prefix of at most [n] characters satisfying [p], and the
    rest. *)
Fixpoint span_upto (n : nat) (p : ascii -> bool) (s : string)
  : string * string :=
  match n, s with
  | S k, String a s' =>
      if p a then let '(l, r) := span_upto k p s' in (String a l, r)
      else (EmptyString, s)
  | _, _ => (EmptyString, s)
  end.

Fixpoint span (p : ascii -> bool) (s : string) : string * string :=
  match s with
  | String a s' =>
      if p a then let '(l, r) := span p s' in (String a l, r)
      else (EmptyString, s)
  | EmptyString => (EmptyString, s)
  end.

Definition skip_dollar (s : string) : string :=
  match s with
  | String a s' => if Ascii.eqb a "$" then s' else s
  | EmptyString => s
  end.

(** [re.compile(r"(\$?)([A-Z]{1,3})(\$?)(\d+)").match(s)], groups 2 and 4.
    Every piece of the pattern is followed by one that cannot start with a
    character the piece itself accepts, so the greedy choice is the only
    match and no backtracking is involved; [match] does not look at what
    follows the digits. *)
Definition re_range_parts_match (s : string) : option (string * string) :=
  let '(col_str, rest) := span_upto 3 is_upper (skip_dollar s) in
  match col_str with
  | EmptyString => None
  | _ =>
      let '(row_str, _) := span is_digit (skip_dollar rest) in
      match row_str with
      | EmptyString => None
      | _ => Some (col_str, row_str)
      end
  end.

(** The [for char in reversed(col_str)] loop, as a fold from the left:
    [col = sum (ord(char) - ord("A") + 1) * 26 ** expn]. *)
Fixpoint col_of_letters (acc : Z) (s : string) : Z :=
  match s with
  | EmptyString => acc
  | String a s' => col_of_letters (acc * 26 + (Py.ord a - Py.ord "A" + 1)) s'
  end.

Definition xl_cell_to_rowcol (cell_str : string) : result (Z * Z) :=
  match cell_str with
  | EmptyString => Ok (0, 0)
  | _ =>
      match re_range_parts_match cell_str with
      | None => Raise AttributeError
      | Some (col_str, row_str) =>
          let col := col_of_letters 0 col_str in
          row ← Py.int_of_digits row_str;
          Ok (row - 1, col - 1)
      end
  end.

End Xlsx.

(** ** Library calls left open

    [os.path.split] depends on the platform's path module, and which
    strings [float] accepts is decided by the interpreter: both are
    parameters of the development. *)

Class OsPath := os_path_split : string -> string * string.

Class PyFloat := {
  pyfloat : Type;
  (** [float(n)] for an integer ([OverflowError] is possible). *)
  float_of_int : Z -> result pyfloat;
  (** [float(s)] for a string ([ValueError] when it is not a number). *)
  float_of_str : string -> result pyfloat;
  (** [str(x)] for a float. *)
  str_of_float : pyfloat -> string
}.

(** ** [constants.py] *)

Module Constants.

Definition POINT_ANALYSIS_LABEL : string := "Point Analysis".
Definition AVERAGE_LABEL : string := "Average".
Definition STD_LABEL : string := "STD".
Definition EXCEL_DEFAULT_SHEETNAME : string := "Sheet".

Definition NAN_FROM_EXCEL : string := "#N/A".
Definition ALT_NAN_FROM_EXCEL : string := "=NA()".
Definition ERROR_FROM_EXCEL : string := "#VALUE!".
Definition REF_VALUE_FROM_EXCEL : string := "#REF!".
Definition DIV0_EXCEL_ERROR : string := "#DIV/0!".
Definition ERROR_VALUE_FOR_INPUT : string := "NA()".
Definition EXCEL_ERROR_VALUES : list string :=
  [ NAN_FROM_EXCEL; ALT_NAN_FROM_EXCEL; ERROR_FROM_EXCEL;
    REF_VALUE_FROM_EXCEL; ERROR_VALUE_FOR_INPUT; DIV0_EXCEL_ERROR ].

End Constants.

(** ** Cell values and worksheets (the part of [openpyxl] in use) *)

Section Values.
Context `{PyFloat}.

(** What the [value] of a cell can be. *)
Inductive value : Type :=
  | VNone
  | VBool (b : bool)
  | VInt (n : Z)
  | VFloat (x : pyfloat)
  | VStr (s : string)
  | VDateTime (text : string).

(** [float(v)]. *)
Definition py_float (v : value) : result pyfloat :=
  match v with
  | VNone => Raise TypeError
  | VBool b => float_of_int (if b then 1 else 0)
  | VInt n => float_of_int n
  | VFloat x => Ok x
  | VStr s => float_of_str s
  | VDateTime _ => Raise TypeError
  end.

(** [str(v)]. *)
Definition py_str (v : value) : string :=
  match v with
  | VNone => "None"
  | VBool b => if b then "True" else "False"
  | VInt n => Py.str_of_int n
  | VFloat x => str_of_float x
  | VStr s => s
  | VDateTime text => text
  end.

(** [v in l] for a list of strings [l]: only a string is equal to a
    string. *)
Definition py_in (v : value) (l : list string) : bool :=
  match v with
  | VStr s => existsb (String.eqb s) l
  | _ => false
  end.

(** A source worksheet: its cells by address (an absent cell reads as
    [None]) and the dimensions it reports.  The limits [openpyxl] itself
    puts on addresses (three column letters, 1048576 rows) are not
    modelled. *)
Record worksheet : Type := {
  ws_cells : gmap string value;
  ws_max_row : Z;
  ws_max_column : Z
}.

(** [sheet.<name>] for the integer attributes of a worksheet. *)
Definition ws_getattr (sheet : worksheet) (name : string) : result Z :=
  if String.eqb name "max_row" then Ok (ws_max_row sheet)
  else if String.eqb name "max_column" then Ok (ws_max_column sheet)
  else Raise AttributeError.

(** [cells[key].value]; a key that is not a string is refused.

    A worksheet of openpyxl has the rows 1 to 1048576 and the columns A to
    ZZZ, that is the cells [(row, col)] with [0 <= row < 1048576] and
    [0 <= col < 18278] as the code counts them; for an address outside it
    raises [ValueError].  The map below answers for every address: it is
    the worksheet on the addresses inside these bounds, and on every call
    that returns. *)
Definition cells_getitem (cells : gmap string value) (key : option string)
  : result value :=
  match key with
  | None => Raise TypeError
  | Some a => Ok (default VNone (cells !! a))
  end.

(** [cells[key] = v], with the same bounds as [cells_getitem]. *)
Definition cells_setitem (cells : gmap string value) (key : option string)
  (v : value) : result (gmap string value) :=
  match key with
  | None => Raise TypeError
  | Some a => Ok (<[a := v]> cells)
  end.

End Values.

(** ** [excel_formulas.py] *)

Module ExcelFormulas.
Section ExcelFormulas.
Context `{OsPath} `{PyFloat}.

Definition error_guard_formula (formula : string) (default : option string)
  : string :=
  let formula := Py.lstrip "=" formula in
  match default with
  | None => "=IFERROR(" +:+ formula +:+ ", NA())"
  | Some d => "=IFERROR(" +:+ formula +:+ ", " +:+ d +:+ ")"
  end.

Definition convert_to_excel_address (row_no col_no : Z)
  (file_path sheet_name : string) (fixed_row fixed_column : bool)
  : option string :=
  let cell_address :=
    Xlsx.xl_rowcol_to_cell row_no col_no fixed_row fixed_column in
  if negb (String.eqb file_path "") then
    let root_path := (os_path_split file_path).1 in
    let file_name := (os_path_split file_path).2 in
    Some ("'" +:+ root_path +:+ "\[" +:+ file_name +:+ "]" +:+ sheet_name
            +:+ "'!" +:+ Py.fmt cell_address)
  else if negb (String.eqb sheet_name "") then
    Some ("'" +:+ sheet_name +:+ "'!" +:+ Py.fmt cell_address)
  else cell_address.

(** [convert_to_excel_address(row_no, col_no)], every option at its
    default. *)
Definition cell_address (row_no col_no : Z) : option string :=
  convert_to_excel_address row_no col_no "" "" false false.

Definition convert_from_excel_cell_address (cell_address : string)
  : result (string * Z * Z) :=
  '(sheet_name, address) ←
    (if Py.contains "!" cell_address then
       s ← Py.index (Py.split "!" cell_address) 0;
       a ← Py.index (Py.split "!" cell_address) 1;
       Ok (Py.strip "'" s, a)
     else Ok (EmptyString, cell_address));
  '(row_no, col_no) ← Xlsx.xl_cell_to_rowcol address;
  Ok (sheet_name, row_no, col_no).

(** The cell is looked up before the [try] is entered. *)
Definition get_cell_value (worksheet : worksheet) (row_no col_no : Z)
  (is_number : bool) (default_value : value) : result value :=
  cell_data ← cells_getitem (ws_cells worksheet) (cell_address row_no col_no);
  try_except
    (if is_number then
       if negb (py_in cell_data Constants.EXCEL_ERROR_VALUES)
       then x ← py_float cell_data; Ok (VFloat x)
       else Ok default_value
     else
       if negb (py_in cell_data Constants.EXCEL_ERROR_VALUES)
       then Ok (VStr (py_str cell_data))
       else Ok default_value)
    (Ok default_value).

End ExcelFormulas.
End ExcelFormulas.

(** ** [file_handler.py] *)

Module FileHandler.
Section FileHandler.
Context `{OsPath}.

Definition get_filename (file_path : string) : result string :=
  let file_path :=
    if Py.contains "\" file_path || Py.contains "/" file_path
    then (os_path_split file_path).2
    else file_path in
  Py.index (Py.split "." file_path) 0.

End FileHandler.
End FileHandler.

(** ** [collater.py]

    [collate_excel_files] up to the first save of the destination workbook.
    The script [collater.py] at the top of the repository is the same code
    with [TARGET_HEADERS] fixed to [["Average"; "STD"]].  [print] calls are
    left out.  No exception is caught anywhere in this part, so a raise ends
    the run and the workbook it was building is never saved. *)

Module Collater.
Section Collater.
Context `{OsPath} `{PyFloat}.

Import ExcelFormulas.

(** The destination workbook: sheet titles in order of creation, and the
    cells of each sheet under its title.  A sheet object held in a
    variable ([dst_sheet], [pt_analysis_sheet]) is a reference into the
    workbook: it is modelled by the title, and a write through it updates
    the workbook. *)
Record workbook : Type := {
  wb_sheetnames : list string;
  wb_sheets : gmap string (gmap string value)
}.

(** [Workbook()]: one empty sheet named "Sheet". *)
Definition Workbook : workbook :=
  {| wb_sheetnames := [Constants.EXCEL_DEFAULT_SHEETNAME];
     wb_sheets := {[ Constants.EXCEL_DEFAULT_SHEETNAME := ∅ ]} |}.

(** [wb.create_sheet(title)] for a title the workbook does not have yet
    (the only way the code calls it).  The library keeps the title when it
    is a valid one that matches no title of the workbook, upper and lower
    case taken as equal; otherwise it raises or renames the sheet, and the
    [dst_workbook.sheetnames.index(sheetname)] that follows the call in
    [collate_excel_files] raises.  The definition is the call that keeps
    the title, the only one after which the scan goes on. *)
Definition create_sheet (wb : workbook) (title : string) : workbook :=
  {| wb_sheetnames := wb_sheetnames wb ++ [title];
     wb_sheets := <[title := ∅]> (wb_sheets wb) |}.

(** [wb[title][key] = v]. *)
Definition sheet_setitem (wb : workbook) (title : string)
  (key : option string) (v : value) : result workbook :=
  match wb_sheets wb !! title with
  | None => Raise KeyError
  | Some cells =>
      cells' ← cells_setitem cells key v;
      Ok {| wb_sheetnames := wb_sheetnames wb;
            wb_sheets := <[title := cells']> (wb_sheets wb) |}
  end.

(** [create_sheet_name] of [excel_formulas.py]. *)
Definition create_sheet_name (name : string) : string :=
  let sheet_name :=
    if (String.length name <=? 31)%nat then name else substring 0 31 name in
  string_of_list_ascii
    (List.filter (fun c => negb (Py.contains c "[]:*?/\"))
       (list_ascii_of_string sheet_name)).

(** What a run carries along: the destination workbook, [max_row_count],
    and (for counting only, the code keeps no such list) the arguments
    [(sheet_index, sheet_title, file_index)] of every call of
    [insert_point_analysis_formula], latest first. *)
Record state : Type := {
  st_wb : workbook;
  st_max_row_count : Z;
  st_calls : list (Z * string * Z)
}.

Definition point_label (sheet_title target_header : string) : string :=
  sheet_title +:+ " (" +:+ target_header +:+ ")".

Definition point_formula (point_address : option string)
  (file_index_ space_between_targets header_idx : Z) (sheet_title : string)
  : string :=
  "=INDIRECT(ADDRESS(" +:+ Py.fmt point_address +:+ "+1, "
    +:+ Py.str_of_int (file_index_ + (space_between_targets * header_idx) + 1)
    +:+ ",,," +:+ Py.dquote +:+ sheet_title +:+ Py.dquote +:+ "))".

(** The [for header_idx, target_header_ in enumerate(target_headers)] loop
    of [insert_point_analysis_formula], from index [header_idx] on. *)
Fixpoint insert_point_analysis_loop (pt : gmap string value)
  (sheet_index : Z) (sheet_title : string)
  (file_index_ space_between_targets : Z) (point_address : option string)
  (header_idx : Z) (target_headers : list string)
  : result (gmap string value) :=
  match target_headers with
  | [] => Ok pt
  | target_header_ :: rest =>
      pt ← cells_setitem pt
             (cell_address sheet_index (space_between_targets * header_idx))
             (VStr (point_label sheet_title target_header_));
      pt ← cells_setitem pt
             (cell_address sheet_index (1 + file_index_))
             (VStr (point_formula point_address file_index_
                      space_between_targets header_idx sheet_title));
      insert_point_analysis_loop pt sheet_index sheet_title file_index_
        space_between_targets point_address (header_idx + 1) rest
  end.

Definition insert_point_analysis_formula (pt_analysis_sheet : gmap string value)
  (sheet_index : Z) (sheet_title : string)
  (file_index_ space_between_targets : Z) (target_headers : list string)
  : result (gmap string value) :=
  let point_address := cell_address 0 (1 + file_index_) in
  insert_point_analysis_loop pt_analysis_sheet sheet_index sheet_title
    file_index_ space_between_targets point_address 0 target_headers.

(** The same call through the reference [pt_analysis_sheet], which is the
    sheet of the destination workbook titled [pt_title]. *)
Definition call_insert_point_analysis_formula (st : state) (pt_title : string)
  (sheet_index : Z) (sheet_title : string)
  (file_index_ space_between_targets : Z) (target_headers : list string)
  : result state :=
  match wb_sheets (st_wb st) !! pt_title with
  | None => Raise KeyError
  | Some pt =>
      pt' ← insert_point_analysis_formula pt sheet_index sheet_title
              file_index_ space_between_targets target_headers;
      Ok {| st_wb := {| wb_sheetnames := wb_sheetnames (st_wb st);
                        wb_sheets := <[pt_title := pt']> (wb_sheets (st_wb st)) |};
            st_max_row_count := st_max_row_count st;
            st_calls := (sheet_index, sheet_title, file_index_) :: st_calls st |}
  end.

(** [~b] on a [bool]: the bitwise complement of the integer 0 or 1. *)
Definition py_invert (b : bool) : Z := if b then -2 else -1.
(** The truth value of an integer in an [if]. *)
Definition truthy (n : Z) : bool := negb (n =? 0).

(** The layout: the destination column of a (file, header) pair, that is
    [file_index + (rel_space_between_targets * header_index)] of the
    transfer loop with [rel_space_between_targets = n_files + 2]. *)
Definition offset (file_index header_index n_files : Z) : Z :=
  file_index + ((n_files + 2) * header_index).

Definition ERROR_VALUE : value := VStr Constants.ERROR_VALUE_FOR_INPUT.

(** The [for row in range(1, row_count + 1)] loop: one column of the
    source sheet copied into column [dst_col] of the sheet [dst_title]. *)
Fixpoint transfer_rows (wb : workbook) (dst_title : string)
  (sheet : worksheet) (col dst_col : Z) (rows : list Z) : result workbook :=
  match rows with
  | [] => Ok wb
  | row :: rest =>
      cell_content ← get_cell_value sheet row col true ERROR_VALUE;
      wb ← sheet_setitem wb dst_title (cell_address row dst_col) cell_content;
      transfer_rows wb dst_title sheet col dst_col rest
  end.

(** The body of [for col in range(col_count)] for one column. *)
Definition scan_column (pt_title : string) (target_headers : list string)
  (file_index rel_space_between_targets : Z) (excel_filename : string)
  (sheetname : string) (sheet : worksheet) (row_count : Z)
  (acc : state * bool) (col : Z) : result (state * bool) :=
  let '(st, contains_a_target_column) := acc in
  header_cell_value ← cells_getitem (ws_cells sheet) (cell_address 0 col);
  if py_in header_cell_value target_headers then
    let wb := st_wb st in
    let wb :=
      if existsb (String.eqb sheetname) (wb_sheetnames wb) then wb
      else create_sheet wb sheetname in
    let st := {| st_wb := wb; st_max_row_count := st_max_row_count st;
                 st_calls := st_calls st |} in
    sheet_index ← Py.list_index sheetname (wb_sheetnames wb);
    '(st, contains_a_target_column) ←
      (if truthy (py_invert contains_a_target_column) then
         st ← call_insert_point_analysis_formula st pt_title sheet_index
                sheetname file_index rel_space_between_targets target_headers;
         Ok (st, true)
       else Ok (st, contains_a_target_column));
    (* [header_cell_value] is one of the target headers here, a string *)
    header_index ← Py.list_index (py_str header_cell_value) target_headers;
    let dst_col := file_index + (rel_space_between_targets * header_index) in
    wb ← sheet_setitem (st_wb st) sheetname (cell_address 0 dst_col)
           (VStr (excel_filename +:+ " (" +:+ py_str header_cell_value +:+ ")"));
    wb ← transfer_rows wb sheetname sheet col dst_col (Py.range 1 (row_count + 1));
    Ok ({| st_wb := wb; st_max_row_count := st_max_row_count st;
           st_calls := st_calls st |}, contains_a_target_column)
  else Ok (st, contains_a_target_column).

(** A [for] loop over a list, the state threaded through. *)
Fixpoint for_each {A S : Type} (body : S -> A -> result S) (l : list A)
  (s : S) : result S :=
  match l with
  | [] => Ok s
  | x :: l' => s' ← body s x; for_each body l' s'
  end.

(** The whole [for col in range(col_count)] loop for one sheet, with
    [contains_a_target_column = False] before it. *)
Definition scan_columns (pt_title : string) (target_headers : list string)
  (file_index rel_space_between_targets : Z) (excel_filename : string)
  (sheetname : string) (sheet : worksheet) (row_count col_count : Z)
  (st : state) : result state :=
  r ← for_each
        (scan_column pt_title target_headers file_index
           rel_space_between_targets excel_filename sheetname sheet row_count)
        (Py.range 0 col_count) (st, false);
  Ok r.1.

(** The body of [for sheetname in sheetnames]. *)
Definition process_sheet (pt_title : string) (target_headers : list string)
  (file_index rel_space_between_targets : Z) (excel_filename : string)
  (st : state) (named_sheet : string * worksheet) : result state :=
  let '(sheetname, sheet) := named_sheet in
  row_count ← ws_getattr sheet "max_row";
  col_count ← ws_getattr sheet "max_colum";
  let st := {| st_wb := st_wb st;
               st_max_row_count := Z.max row_count (st_max_row_count st);
               st_calls := st_calls st |} in
  scan_columns pt_title target_headers file_index rel_space_between_targets
    excel_filename sheetname sheet row_count col_count st.

(** The loop that labels the point-analysis sheet with the file name. *)
Fixpoint label_file (wb : workbook) (pt_title : string)
  (rel_space_between_targets : Z) (excel_filename : string)
  (idx : Z) (target_headers : list string) : result workbook :=
  match target_headers with
  | [] => Ok wb
  | target_header :: rest =>
      wb ← sheet_setitem wb pt_title
             (cell_address 1 (1 + (rel_space_between_targets * idx)))
             (VStr (excel_filename +:+ " (" +:+ target_header +:+ ")"));
      label_file wb pt_title rel_space_between_targets excel_filename
        (idx + 1) rest
  end.

(** The body of [for file_index in range(n_files)].  A source file is
    given by its path and the sheets [load_workbook] finds in it, in
    order. *)
Definition process_file (pt_title : string) (target_headers : list string)
  (excel_filenames : list string) (rel_space_between_targets : Z)
  (files : list (string * list (string * worksheet))) (st : state)
  (file_index : Z) : result state :=
  src_workbook ← Py.index files (Z.to_nat file_index);
  excel_filename ← Py.index excel_filenames (Z.to_nat file_index);
  wb ← label_file (st_wb st) pt_title rel_space_between_targets
         excel_filename 0 target_headers;
  let st := {| st_wb := wb; st_max_row_count := st_max_row_count st;
               st_calls := st_calls st |} in
  for_each
    (process_sheet pt_title target_headers file_index
       rel_space_between_targets excel_filename)
    src_workbook.2 st.

(** [collate_excel_files] for the files that the folder holds, in the
    order of the listing.  [None] is the run that does nothing (no file). *)
Definition collate_excel_files
  (files : list (string * list (string * worksheet)))
  (target_headers : list string) : result (option state) :=
  excel_filenames ← mapM (fun f => FileHandler.get_filename f.1) files;
  let n_files := Z.of_nat (length files) in
  let rel_space_between_targets := n_files + 2 in
  if truthy n_files then
    let dst_workbook := Workbook in
    let pt_title := create_sheet_name Constants.POINT_ANALYSIS_LABEL in
    let dst_workbook := create_sheet dst_workbook pt_title in
    wb ← sheet_setitem dst_workbook pt_title (cell_address 0 0)
           (VStr "Column Index ->");
    st ← for_each
           (process_file pt_title target_headers excel_filenames
              rel_space_between_targets files)
           (Py.range 0 n_files)
           {| st_wb := wb; st_max_row_count := 0; st_calls := [] |};
    Ok (Some st)
  else Ok None.

End Collater.
End Collater.

(** ** More of [excel_formulas.py] *)

Module Formulas.
Section Formulas.
Context `{OsPath} `{PyFloat}.

Import ExcelFormulas.


Definition get_scale_equation (value_address scale_address : string)
  : string :=
  error_guard_formula ("=" +:+ value_address +:+ "*" +:+ scale_address) None.

Definition get_ratio_equation (numerator_address denominator_address : string)
  (always_positive : bool) (default : option string) : string :=
  let formula :=
    if always_positive
    then "=ABS(" +:+ numerator_address +:+ "/" +:+ denominator_address +:+ ")"
    else "=" +:+ numerator_address +:+ "/" +:+ denominator_address in
  error_guard_formula formula default.

Definition get_average_equation (value1_address value2_address : string)
  : string :=
  error_guard_formula
    ("=(" +:+ value1_address +:+ " + " +:+ value2_address +:+ ") / 2") None.

Definition get_cah_equation (left_angle_address right_angle_address : string)
  (flow_is_left_to_right : bool) : string :=
  let upstream_contact_angle :=
    if flow_is_left_to_right then left_angle_address
    else right_angle_address in
  let downstream_contact_angle :=
    if flow_is_left_to_right then right_angle_address
    else left_angle_address in
  error_guard_formula
    ("=COS(RADIANS(" +:+ upstream_contact_angle +:+ ")) - COS(RADIANS("
       +:+ downstream_contact_angle +:+ "))") None.

Definition get_average_equation_for_row_range
  (row_no start_col_no end_col_no : Z) (positive_only : bool) : string :=
  let start_address := Py.fmt (cell_address row_no start_col_no) in
  let end_address := Py.fmt (cell_address row_no end_col_no) in
  let avg_equation :=
    if positive_only then
      "=AVERAGEIFS(" +:+ start_address +:+ ":" +:+ end_address +:+ ", "
        +:+ start_address +:+ ":" +:+ end_address +:+ ", "
        +:+ Py.dquote +:+ "<>#N/A" +:+ Py.dquote +:+ ", "
        +:+ start_address +:+ ":" +:+ end_address +:+ ", "
        +:+ Py.dquote +:+ ">= 0" +:+ Py.dquote +:+ ")"
    else
      "=AVERAGEIFS(" +:+ start_address +:+ ":" +:+ end_address +:+ ", "
        +:+ start_address +:+ ":" +:+ end_address +:+ ", "
        +:+ Py.dquote +:+ "<>#N/A" +:+ Py.dquote +:+ ")" in
  error_guard_formula avg_equation None.

Definition get_std_equation_for_row_range
  (row_no start_col_no end_col_no : Z) (positive_only : bool) : string :=
  let start_address := Py.fmt (cell_address row_no start_col_no) in
  let end_address := Py.fmt (cell_address row_no end_col_no) in
  let range_formula := start_address +:+ ":" +:+ end_address in
  let std_equation :=
    if positive_only then
      let condition :=
        "IF((" +:+ range_formula +:+ " > 0), " +:+ range_formula +:+ ", "
          +:+ Py.dquote +:+ Py.dquote +:+ ")" in
      "=STDEV(" +:+ condition
    else "=STDEV(" +:+ range_formula in
  error_guard_formula std_equation None.

Definition get_excel_row_range (start_row_no end_row_no col_no : Z)
  (sheet_name : string) : string :=
  let start_address :=
    Py.fmt (convert_to_excel_address start_row_no col_no "" "" true true) in
  let end_address :=
    Py.fmt (convert_to_excel_address end_row_no col_no "" "" true true) in
  if negb (String.eqb sheet_name "") then
    "='" +:+ sheet_name +:+ "'!" +:+ start_address +:+ ":" +:+ end_address
  else "=" +:+ start_address +:+ ":" +:+ end_address.

(** The [for idx, value in enumerate(contents)] loop of
    [write_openpyxl_row], from index [idx] on. *)
Fixpoint write_openpyxl_row_loop (worsksheet : gmap string value)
  (row_no col_no idx : Z) (contents : list value)
  : result (gmap string value) :=
  match contents with
  | [] => Ok worsksheet
  | v :: rest =>
      worsksheet ← cells_setitem worsksheet (cell_address row_no (col_no + idx))
                     (match v with VNone => VStr "" | _ => v end);
      write_openpyxl_row_loop worsksheet row_no col_no (idx + 1) rest
  end.

Definition write_openpyxl_row (worsksheet : gmap string value)
  (row_no col_no : Z) (contents : list value) : result (gmap string value) :=
  write_openpyxl_row_loop worsksheet row_no col_no 0 contents.

End Formulas.
End Formulas.

(** ** More of [file_handler.py]

    [os.path.join] is a parameter like [os.path.split]; what [listdir]
    returns for the folder is an input. *)

Class OsJoin := os_path_join : string -> string -> string.

Module Folder.
Section Folder.
Context `{OsJoin}.

(** [s.endswith(suffix)]. *)
Fixpoint endswith (s suffix : string) : bool :=
  if String.eqb s suffix then true
  else match s with
       | EmptyString => false
       | String _ s' => endswith s' suffix
       end.

Definition EXCEL_FILE_EXTENSION : string := ".xlsx".
Definition DAVIS_SET_FILE_EXTENSION : string := ".set".

Definition get_files_from_folder (listdir : list string)
  (folder_path only_files_with_extension : string) : list string :=
  map (os_path_join folder_path)
    (List.filter (fun file => endswith file only_files_with_extension)
       listdir).

Definition get_excel_files_from_folder (listdir : list string)
  (folder_path : string) : list string :=
  get_files_from_folder listdir folder_path EXCEL_FILE_EXTENSION.

Definition get_davis_set_files_from_folder (listdir : list string)
  (folder_path : string) : list string :=
  get_files_from_folder listdir folder_path DAVIS_SET_FILE_EXTENSION.

End Folder.
End Folder.

(** ** The charts of [collate_excel_files]

    Where the chart of header block [i] is anchored:
    [convert_to_excel_address(0, n_files + (rel_space_between_targets * i))]
    with [rel_space_between_targets = n_files + 2]. *)

Definition chart_location_col (n_files i : Z) : Z :=
  n_files + ((n_files + 2) * i).

(** The columns handed to the chart of header block [i]:
    [cols = [1 for i in range((rel_space_between_targets * i),
                              n_files + (rel_space_between_targets * i))]]. *)
Definition chart_cols (n_files i : Z) : list Z :=
  (fun _ => 1) <$> Py.range ((n_files + 2) * i) (n_files + ((n_files + 2) * i)).

(** ** The file [collate_excel_files] saves

    [destination_path = join(root_folder,
                             f"-{constants.COLLATER_EXCEL_FILENAME}")]. *)

Definition COLLATER_EXCEL_FILENAME : string :=
  "Cumulative" +:+ Folder.EXCEL_FILE_EXTENSION.

Definition destination_path `{OsJoin} (root_folder : string) : string :=
  os_path_join root_folder ("-" +:+ COLLATER_EXCEL_FILENAME).

(** ** Definitions used to state the properties *)

(** The destination columns of all (file, header) pairs, header block by
    header block: the image of the layout on
    [{0..n_files-1} x {0..n_headers-1}]. *)
Definition layout_columns (n_files n_headers : Z) : list Z :=
  h ← Py.range 0 n_headers;
  (fun f => Collater.offset f h n_files) <$> Py.range 0 n_files.

(** An address reader without the three-letter limit of the library's
    pattern: all leading capitals are the column, the digits after them the
    row.  It is the inverse that shows addresses of different cells to be
    different strings. *)
Definition read_cell_address (s : string) : result (Z * Z) :=
  let '(col_str, row_str) := Xlsx.span Xlsx.is_upper s in
  row ← Py.int_of_digits row_str;
  Ok (row - 1, Xlsx.col_of_letters 0 col_str - 1).

(** What [get_cell_value] makes of the raw content of a cell once it has
    been looked up. *)
Definition coerce `{PyFloat} (cell_data : value) (is_number : bool)
  (dflt : value) : value :=
  if py_in cell_data Constants.EXCEL_ERROR_VALUES then dflt
  else if is_number then
    match py_float cell_data with
    | Ok x => VFloat x
    | Raise _ => dflt
    end
  else VStr (py_str cell_data).

(** The letter that one round of the loop of [xl_col_to_name] puts in
    front. *)
Definition round_letter (col_num : Z) : ascii :=
  Py.chr (Py.ord "A"
          + (if col_num mod 26 =? 0 then 26 else col_num mod 26) - 1).

(** The last 1-based column number written with [k] letters. *)
Fixpoint last_col_num (k : nat) : Z :=
  match k with
  | O => 0
  | S k' => 26 * last_col_num k' + 26
  end.

(** [s] is empty or starts with a character that fails [p]. *)
Definition stops (p : ascii -> bool) (s : string) : bool :=
  match s with
  | EmptyString => true
  | String a _ => negb (p a)
  end.

(** The shape of the address of the cell at [(row, col)]: capitals that
    read as [col + 1], then digits that read as [row + 1]. *)
Record address_parts (col_str row_str : string) (row col : Z) : Prop := {
  parts_upper : Py.all_chars Xlsx.is_upper col_str = true;
  parts_digits : Py.all_chars Xlsx.is_digit row_str = true;
  parts_col_nonempty : col_str <> "";
  parts_row_nonempty : row_str <> "";
  parts_col : Xlsx.col_of_letters 0 col_str = col + 1;
  parts_row : Py.int_of_digits row_str = Ok (row + 1)
}.

(** A destination workbook in which the references the run holds are
    valid: the point-analysis sheet is there, and so is a sheet for every
    title in the list of sheet names. *)
Definition wf_workbook `{PyFloat} (pt_title : string) (wb : Collater.workbook)
  : Prop :=
  is_Some (Collater.wb_sheets wb !! pt_title) /\
  forall name, name ∈ Collater.wb_sheetnames wb ->
               is_Some (Collater.wb_sheets wb !! name).

(** Column [col] of [sheet] has a target header in row 0. *)
Definition is_target_column `{OsPath} `{PyFloat} (target_headers : list string)
  (sheet : worksheet) (col : Z) : bool :=
  match cells_getitem (ws_cells sheet) (ExcelFormulas.cell_address 0 col) with
  | Ok header_cell_value => py_in header_cell_value target_headers
  | Raise _ => false
  end.

(** How often the character [c] occurs in [s], and the excess of opening
    over closing parentheses. *)
Fixpoint count_char (c : ascii) (s : string) : Z :=
  match s with
  | EmptyString => 0
  | String a s' => (if Ascii.eqb a c then 1 else 0) + count_char c s'
  end.

Definition paren_balance (s : string) : Z :=
  count_char "(" s - count_char ")" s.

(** The characters [create_sheet_name] removes. *)
Definition illegal_in_sheet_name (c : ascii) : bool :=
  Py.contains c "[]:*?/\".

(** A list of writes [cells[key] = v] carried out in order. *)
Definition apply_writes `{PyFloat} (writes : list (string * value))
  (cells : gmap string value) : gmap string value :=
  foldl (fun m kv => <[kv.1 := kv.2]> m) cells writes.

(** [os.path.join] for the concrete examples. *)
Definition posix_join : OsJoin := fun a b => a +:+ "/" +:+ b.

(** Instances of the open library calls for the concrete examples: floats
    cut down to the integers written in digits, and paths cut at their last
    separator. *)
Module Sample.

Definition floats : PyFloat :=
  {| pyfloat := Z;
     float_of_int := fun n => Ok n;
     float_of_str := Py.int_of_digits;
     str_of_float := Py.str_of_int |}.

Fixpoint path_tail (p : string) : string :=
  match p with
  | EmptyString => EmptyString
  | String a p' =>
      if Py.contains "/" p || Py.contains "\" p then path_tail p' else p
  end.

Definition paths : OsPath := fun p =>
  (substring 0 (String.length p - String.length (path_tail p) - 1) p,
   path_tail p).

(** A sheet from a list of cells. *)
Definition sheet_of `{PyFloat} (l : list (string * value)) (max_row max_column : Z)
  : worksheet :=
  {| ws_cells := list_to_map l; ws_max_row := max_row;
     ws_max_column := max_column |}.

(** The sheet "Run1" of the two-file scenario: headers only. *)
Definition run1 `{PyFloat} : worksheet :=
  sheet_of [("A1", VStr "Average"); ("B1", VStr "STD")] 1 2.

(** The two files of the scenario. *)
Definition scenario `{PyFloat} : list (string * list (string * worksheet)) :=
  [("f0.xlsx", [("Run1", run1)]); ("f1.xlsx", [("Run1", run1)])].

(** A sheet with data under its two headers: a number, a number written
    as text, an error marker and a text that is not a number. *)
Definition with_data `{PyFloat} : worksheet :=
  sheet_of [("A1", VStr "Average"); ("B1", VStr "STD");
            ("A2", VInt 3); ("B2", VStr "#DIV/0!");
            ("A3", VStr "12"); ("B3", VStr "n/a")] 3 2.

(** A sheet with five target-header matches in five different columns. *)
Definition five_matches `{PyFloat} : worksheet :=
  sheet_of [("A1", VStr "Average"); ("B1", VStr "STD"); ("C1", VStr "Average");
            ("D1", VStr "STD"); ("E1", VStr "Average")] 1 5.

(** A sheet whose cell A1 holds one of the error markers. *)
Definition marker_sheet `{PyFloat} (marker : string) : worksheet :=
  sheet_of [("A1", VStr marker)] 1 1.

(** The state a scan starts from: the fresh workbook with the
    point-analysis sheet added. *)
Definition start `{PyFloat} : Collater.state :=
  {| Collater.st_wb := Collater.create_sheet Collater.Workbook "Point Analysis";
     Collater.st_max_row_count := 0;
     Collater.st_calls := [] |}.

End Sample.

(** * Properties *)

(** ** The layout *)

Section Layout.

Lemma offset_inj (N f1 h1 f2 h2 : Z) :
  0 <= f1 < N -> 0 <= f2 < N -> 0 <= h1 -> 0 <= h2 ->
  Collater.offset f1 h1 N = Collater.offset f2 h2 N ->
  f1 = f2 /\ h1 = h2.
Proof.
  unfold Collater.offset. intros Hf1 Hf2 Hh1 Hh2 E.
  assert (h1 = h2) as -> by nia.
  split; [lia | reflexivity].
Qed.

Lemma length_bind_const {A B} (f : A -> list B) (k : nat) (l : list A) :
  (forall x, x ∈ l -> length (f x) = k) ->
  length (l ≫= f) = (length l * k)%nat.
Proof.
  induction l as [|x l IH]; intros Hk; csimpl; [reflexivity|].
  rewrite length_app, Hk by constructor.
  rewrite IH; [lia|]. intros y Hy. apply Hk. by constructor.
Qed.

Lemma elem_of_range (lo hi i : Z) : i ∈ Py.range lo hi <-> lo <= i < hi.
Proof. unfold Py.range. rewrite elem_of_seqZ. lia. Qed.

Lemma layout_columns_NoDup (N Hc : Z) : NoDup (layout_columns N Hc).
Proof.
  unfold layout_columns. apply NoDup_bind.
  - intros h1 h2 y Hh1 Hh2
      (f1 & -> & Hf1)%list_elem_of_fmap (f2 & E & Hf2)%list_elem_of_fmap.
    apply elem_of_range in Hh1, Hh2, Hf1, Hf2.
    destruct (offset_inj N f1 h1 f2 h2); [lia..|done|done].
  - intros h Hh. apply NoDup_fmap_2_strong; [|apply NoDup_seqZ].
    intros f1 f2 Hf1 Hf2 E. apply elem_of_range in Hh, Hf1, Hf2.
    destruct (offset_inj N f1 h f2 h); [lia..|done|done].
  - apply NoDup_seqZ.
Qed.

Lemma layout_columns_length (N Hc : Z) :
  0 <= N -> 0 <= Hc -> Z.of_nat (length (layout_columns N Hc)) = N * Hc.
Proof.
  intros HN HH. unfold layout_columns.
  rewrite (length_bind_const _ (Z.to_nat N)).
  - unfold Py.range. rewrite length_seqZ. lia.
  - intros h _. rewrite length_fmap. unfold Py.range.
    rewrite length_seqZ. lia.
Qed.

(** C1.  For every file count [N >= 1] and header count [Hc >= 1], the
    layout [(f, h) -> f + h * (N + 2)] is injective on
    [{0..N-1} x {0..Hc-1}]: the list of destination columns has no
    repetition and exactly [N * Hc] entries, so no two (file, header)
    pairs write to the same destination column. *)
Theorem C1_offset_injective (N Hc : Z) :
  1 <= N -> 1 <= Hc ->
  (forall f h, Collater.offset f h N = f + h * (N + 2)) /\
  (forall f1 h1 f2 h2,
      0 <= f1 < N -> 0 <= h1 < Hc -> 0 <= f2 < N -> 0 <= h2 < Hc ->
      Collater.offset f1 h1 N = Collater.offset f2 h2 N ->
      f1 = f2 /\ h1 = h2) /\
  (forall f h, 0 <= f < N -> 0 <= h < Hc ->
               Collater.offset f h N ∈ layout_columns N Hc) /\
  NoDup (layout_columns N Hc) /\
  Z.of_nat (length (layout_columns N Hc)) = N * Hc.
Proof.
  intros HN HH. split_and!.
  - intros f h. unfold Collater.offset. lia.
  - intros f1 h1 f2 h2 ? ? ? ? E. apply (offset_inj N); [lia..|done].
  - intros f h Hf Hh. unfold layout_columns.
    apply list_elem_of_bind. exists h. split.
    + apply list_elem_of_fmap. exists f. by rewrite elem_of_range.
    + by rewrite elem_of_range.
  - apply layout_columns_NoDup.
  - apply layout_columns_length; lia.
Qed.

(** The layout of two files and two headers: columns 0, 1, 4, 5. *)
Lemma C1_offset_injective_witness :
  NoDup (layout_columns 2 2) /\
  Z.of_nat (length (layout_columns 2 2)) = 2 * 2.
Proof.
  pose proof (C1_offset_injective 2 2 ltac:(lia) ltac:(lia)) as (_ & _ & _ & Hnd & Hlen).
  exact (conj Hnd Hlen).
Defined.

End Layout.

(** ** Addresses of cells with non-negative indices *)

Section Strings.

Lemma str_app_cons (a : ascii) (s1 s2 : string) :
  String a s1 +:+ s2 = String a (s1 +:+ s2).
Proof. reflexivity. Qed.

Lemma str_app_nil_l (s : string) : "" +:+ s = s.
Proof. reflexivity. Qed.

Lemma str_app_nil_r (s : string) : s +:+ "" = s.
Proof. induction s as [|a s IH]; [done|]. by rewrite str_app_cons, IH. Qed.

Lemma str_app_assoc (s1 s2 s3 : string) :
  (s1 +:+ s2) +:+ s3 = s1 +:+ (s2 +:+ s3).
Proof.
  induction s1 as [|a s1 IH]; [done|]. by rewrite !str_app_cons, IH.
Qed.

End Strings.

Section Addresses.
Context `{OsPath}.

Lemma col_letters_app (fuel : nat) (n : Z) (acc : string) :
  Xlsx.col_letters fuel n acc = Xlsx.col_letters fuel n "" +:+ acc.
Proof.
  revert n acc. induction fuel as [|k IH]; intros n acc; simpl; [done|].
  destruct (n =? 0); [done|].
  rewrite IH. rewrite (IH _ (String _ "")).
  by rewrite str_app_assoc.
Qed.

Lemma xl_col_to_name_some (col : Z) :
  0 <= col ->
  Xlsx.xl_col_to_name col false =
    Some (Xlsx.col_letters (Xlsx.col_fuel (col + 1)) (col + 1) "").
Proof.
  intros Hc. unfold Xlsx.xl_col_to_name.
  destruct (Z.ltb_spec col 0); [lia|done].
Qed.

Lemma cell_address_some (row col : Z) :
  0 <= row -> 0 <= col ->
  ExcelFormulas.cell_address row col =
    Some (Xlsx.col_letters (Xlsx.col_fuel (col + 1)) (col + 1) ""
            +:+ Py.str_of_int (row + 1)).
Proof.
  intros Hr Hc.
  unfold ExcelFormulas.cell_address, ExcelFormulas.convert_to_excel_address,
    Xlsx.xl_rowcol_to_cell.
  destruct (Z.ltb_spec row 0); [lia|].
  destruct (Z.ltb_spec col 0); [lia|].
  by rewrite xl_col_to_name_some.
Qed.

Lemma cell_address_negative (row col : Z) :
  row < 0 \/ col < 0 -> ExcelFormulas.cell_address row col = None.
Proof.
  intros Hneg.
  unfold ExcelFormulas.cell_address, ExcelFormulas.convert_to_excel_address,
    Xlsx.xl_rowcol_to_cell.
  destruct (Z.ltb_spec row 0); [done|].
  destruct (Z.ltb_spec col 0); [done|lia].
Qed.

End Addresses.

(** ** Letters, digits and the address round trip *)

Section AddressRoundTrip.

Lemma str_length_app (s1 s2 : string) :
  String.length (s1 +:+ s2) = (String.length s1 + String.length s2)%nat.
Proof.
  induction s1 as [|a s1 IH]; [done|]. rewrite str_app_cons. cbn. by rewrite IH.
Qed.

Lemma ord_chr (n : Z) : 0 <= n < 256 -> Py.ord (Py.chr n) = n.
Proof.
  intros Hn. unfold Py.ord, Py.chr.
  rewrite N_ascii_embedding by lia. lia.
Qed.

Lemma col_of_letters_app (acc : Z) (s1 s2 : string) :
  Xlsx.col_of_letters acc (s1 +:+ s2)
    = Xlsx.col_of_letters (Xlsx.col_of_letters acc s1) s2.
Proof.
  revert acc. induction s1 as [|a s1 IH]; intros acc; [done|].
  rewrite str_app_cons. cbn. apply IH.
Qed.

Lemma col_letters_step (k : nat) (n : Z) :
  n <> 0 ->
  Xlsx.col_letters (S k) n ""
    = Xlsx.col_letters k ((n - 1) / 26) "" +:+ String (round_letter n) "".
Proof.
  intros Hn. cbn [Xlsx.col_letters].
  destruct (Z.eqb_spec n 0); [done|]. by rewrite col_letters_app.
Qed.

Lemma round_letter_ord (n : Z) :
  Py.ord (round_letter n) - Py.ord "A" + 1 = (n - 1) mod 26 + 1.
Proof.
  unfold round_letter. change (Py.ord "A") with 65.
  destruct (Z.eqb_spec (n mod 26) 0) as [E|E].
  - rewrite ord_chr by lia. Z.to_euclidean_division_equations. lia.
  - pose proof (Z.mod_pos_bound n 26 ltac:(lia)).
    rewrite ord_chr by lia. Z.to_euclidean_division_equations. lia.
Qed.

Lemma round_letter_upper (n : Z) : Xlsx.is_upper (round_letter n) = true.
Proof.
  unfold Xlsx.is_upper. pose proof (round_letter_ord n) as E.
  change (Py.ord "A") with 65 in E.
  pose proof (Z.mod_pos_bound (n - 1) 26 ltac:(lia)).
  apply andb_true_iff. split; apply Z.leb_le; lia.
Qed.

(** Enough fuel: the loop has read the whole number. *)
Lemma col_letters_roundtrip (fuel : nat) (n : Z) :
  0 <= n < 2 ^ Z.of_nat fuel ->
  Xlsx.col_of_letters 0 (Xlsx.col_letters fuel n "") = n.
Proof.
  revert n. induction fuel as [|k IH]; intros n Hn.
  - cbn in *. lia.
  - destruct (Z.eq_dec n 0) as [->|Hn0]; [done|].
    rewrite col_letters_step by done.
    rewrite col_of_letters_app. cbn [Xlsx.col_of_letters].
    rewrite Nat2Z.inj_succ, Z.pow_succ_r in Hn by lia.
    rewrite IH.
    + pose proof (round_letter_ord n) as E.
      Z.to_euclidean_division_equations. lia.
    + Z.to_euclidean_division_equations. lia.
Qed.

Lemma col_fuel_enough (n : Z) :
  0 <= n -> 0 <= n < 2 ^ Z.of_nat (Xlsx.col_fuel n).
Proof.
  intros Hn. unfold Xlsx.col_fuel.
  rewrite Nat2Z.inj_succ, Z2Nat.id by apply Z.log2_nonneg.
  destruct (Z.eq_dec n 0) as [->|]; [cbn; lia|].
  pose proof (Z.log2_spec n ltac:(lia)). lia.
Qed.

Lemma all_chars_app (p : ascii -> bool) (s1 s2 : string) :
  Py.all_chars p (s1 +:+ s2) = Py.all_chars p s1 && Py.all_chars p s2.
Proof.
  induction s1 as [|a s1 IH]; [done|].
  rewrite str_app_cons. cbn. by rewrite IH, andb_assoc.
Qed.

Lemma col_letters_upper (fuel : nat) (n : Z) :
  Py.all_chars Xlsx.is_upper (Xlsx.col_letters fuel n "") = true.
Proof.
  revert n. induction fuel as [|k IH]; intros n; [done|].
  destruct (Z.eq_dec n 0) as [->|Hn0]; [done|].
  rewrite col_letters_step, all_chars_app, IH by done.
  cbn. by rewrite round_letter_upper.
Qed.

Lemma col_letters_length (k fuel : nat) (n : Z) :
  0 <= n <= last_col_num k ->
  (String.length (Xlsx.col_letters fuel n "") <= k)%nat.
Proof.
  revert fuel n. induction k as [|k IH]; intros fuel n Hn.
  - cbn in Hn. assert (n = 0) as -> by lia. destruct fuel; cbn; lia.
  - destruct fuel as [|fuel]; [cbn; lia|].
    destruct (Z.eq_dec n 0) as [->|Hn0]; [cbn; lia|].
    rewrite col_letters_step, str_length_app by done. cbn [String.length].
    cbn [last_col_num] in Hn.
    specialize (IH fuel ((n - 1) / 26)).
    assert (0 <= (n - 1) / 26 <= last_col_num k)
      by (Z.to_euclidean_division_equations; lia).
    lia.
Qed.

Lemma uint_digits (d : Decimal.uint) :
  Py.all_chars Xlsx.is_digit (NilEmpty.string_of_uint d) = true.
Proof. induction d; cbn; [done|assumption..]. Qed.

Lemma str_of_int_digits (n : Z) :
  0 <= n -> Py.all_chars Xlsx.is_digit (Py.str_of_int n) = true.
Proof.
  intros Hn. unfold Py.str_of_int. destruct n as [|p|p]; [done| |lia].
  cbn. unfold NilZero.string_of_uint.
  destruct (Pos.to_uint p) eqn:E; [done|rewrite <- E; apply uint_digits..].
Qed.

Lemma str_of_int_nonempty (n : Z) : Py.str_of_int n <> "".
Proof.
  unfold Py.str_of_int.
  destruct n as [|p|p]; cbn; [done| |done].
  pose proof (Unsigned.to_uint_nonnil p).
  unfold NilZero.string_of_uint. by destruct (Pos.to_uint p).
Qed.

Lemma int_of_digits_str_of_int (n : Z) :
  0 <= n -> Py.int_of_digits (Py.str_of_int n) = Ok n.
Proof.
  intros Hn. unfold Py.int_of_digits, Py.str_of_int.
  destruct n as [|p|p]; [done| |lia].
  cbn [Z.to_int NilZero.string_of_int].
  rewrite NilZero.usu by apply Unsigned.to_uint_nonnil.
  unfold N.of_uint. by rewrite Unsigned.of_to.
Qed.

Lemma span_app (p : ascii -> bool) (s1 s2 : string) :
  Py.all_chars p s1 = true -> stops p s2 = true ->
  Xlsx.span p (s1 +:+ s2) = (s1, s2).
Proof.
  intros H1 H2. induction s1 as [|a s1 IH].
  - rewrite str_app_nil_l. destruct s2 as [|b s2]; [done|]. cbn in *.
    by destruct (p b).
  - rewrite str_app_cons. cbn in *.
    apply andb_true_iff in H1 as [-> H1]. by rewrite IH.
Qed.

Lemma span_upto_app (k : nat) (p : ascii -> bool) (s1 s2 : string) :
  Py.all_chars p s1 = true -> stops p s2 = true ->
  (String.length s1 <= k)%nat ->
  Xlsx.span_upto k p (s1 +:+ s2) = (s1, s2).
Proof.
  intros H1 H2. revert k. induction s1 as [|a s1 IH]; intros k Hk.
  - rewrite str_app_nil_l. destruct s2 as [|b s2]; [by destruct k|].
    destruct k; [done|]. cbn in *. by destruct (p b).
  - rewrite str_app_cons. simpl in Hk.
    destruct k as [|k]; [lia|]. cbn in H1 |- *.
    apply andb_true_iff in H1 as [-> H1]. rewrite IH; [done..|lia].
Qed.

Lemma digit_not_upper (a : ascii) :
  Xlsx.is_digit a = true -> Xlsx.is_upper a = false.
Proof.
  unfold Xlsx.is_digit, Xlsx.is_upper.
  intros [_ ?%Z.leb_le]%andb_true_iff.
  apply andb_false_iff. left. apply Z.leb_gt. lia.
Qed.

Lemma digit_not_dollar (a : ascii) :
  Xlsx.is_digit a = true -> Ascii.eqb a "$" = false.
Proof.
  intros Hd. destruct (Ascii.eqb_spec a "$") as [->|]; [|done].
  by vm_compute in Hd.
Qed.

Lemma upper_not_dollar (a : ascii) :
  Xlsx.is_upper a = true -> Ascii.eqb a "$" = false.
Proof.
  intros Hd. destruct (Ascii.eqb_spec a "$") as [->|]; [|done].
  by vm_compute in Hd.
Qed.

Lemma cell_address_parts `{OsPath} (row col : Z) :
  0 <= row -> 0 <= col ->
  exists col_str row_str,
    ExcelFormulas.cell_address row col = Some (col_str +:+ row_str) /\
    address_parts col_str row_str row col /\
    (col < 18278 -> (String.length col_str <= 3)%nat).
Proof.
  intros Hr Hc. rewrite cell_address_some by done.
  eexists _, _. split; [done|]. split; [split|].
  - apply col_letters_upper.
  - apply str_of_int_digits. lia.
  - intros E.
    pose proof (col_letters_roundtrip (Xlsx.col_fuel (col + 1)) (col + 1)
                  (col_fuel_enough (col + 1) ltac:(lia))) as R.
    rewrite E in R. cbn in R. lia.
  - apply str_of_int_nonempty.
  - apply col_letters_roundtrip, col_fuel_enough. lia.
  - apply int_of_digits_str_of_int. lia.
  - intros Hlt. apply col_letters_length.
    change (last_col_num 3) with 18278. lia.
Qed.

Lemma stops_upper_digits (row_str : string) :
  Py.all_chars Xlsx.is_digit row_str = true ->
  stops Xlsx.is_upper row_str = true.
Proof.
  destruct row_str as [|a s]; [done|]. cbn.
  intros [Ha _]%andb_true_iff. by rewrite digit_not_upper.
Qed.

Lemma read_cell_address_parts col_str row_str row col :
  address_parts col_str row_str row col ->
  read_cell_address (col_str +:+ row_str) = Ok (row, col).
Proof.
  intros [Hu Hd Hcn Hrn Hc Hr]. unfold read_cell_address.
  rewrite span_app by auto using stops_upper_digits.
  rewrite Hr. cbn. rewrite Hc. do 2 f_equal; lia.
Qed.

Lemma xl_cell_to_rowcol_parts col_str row_str row col :
  address_parts col_str row_str row col ->
  (String.length col_str <= 3)%nat ->
  Xlsx.xl_cell_to_rowcol (col_str +:+ row_str) = Ok (row, col).
Proof.
  intros [Hu Hd Hcn Hrn Hc Hr] Hlen. unfold Xlsx.xl_cell_to_rowcol.
  destruct col_str as [|a col_str]; [done|]. rewrite str_app_cons.
  rewrite <- str_app_cons. unfold Xlsx.re_range_parts_match.
  assert (Xlsx.skip_dollar (String a col_str +:+ row_str)
          = String a col_str +:+ row_str) as ->.
  { rewrite str_app_cons. cbn in Hu |- *.
    apply andb_true_iff in Hu as [Ha _]. by rewrite upper_not_dollar. }
  rewrite span_upto_app by auto using stops_upper_digits.
  assert (Xlsx.skip_dollar row_str = row_str) as ->.
  { destruct row_str as [|b row_str]; [done|]. cbn in Hd |- *.
    apply andb_true_iff in Hd as [Hb _]. by rewrite digit_not_dollar. }
  rewrite <- (str_app_nil_r row_str) at 1.
  rewrite span_app by done.
  destruct row_str as [|b row_str]; [done|].
  cbn -[Xlsx.col_of_letters Py.int_of_digits].
  rewrite Hr. cbn -[Xlsx.col_of_letters]. rewrite Hc. do 2 f_equal; lia.
Qed.

(** Different cells have different addresses. *)
Lemma cell_address_inj `{OsPath} (r1 c1 r2 c2 : Z) :
  0 <= r1 -> 0 <= c1 -> 0 <= r2 -> 0 <= c2 ->
  ExcelFormulas.cell_address r1 c1 = ExcelFormulas.cell_address r2 c2 ->
  r1 = r2 /\ c1 = c2.
Proof.
  intros Hr1 Hc1 Hr2 Hc2 E.
  destruct (cell_address_parts r1 c1) as (l1 & d1 & E1 & P1 & _); [done..|].
  destruct (cell_address_parts r2 c2) as (l2 & d2 & E2 & P2 & _); [done..|].
  rewrite E1, E2 in E. injection E as E.
  apply read_cell_address_parts in P1, P2. rewrite E in P1.
  rewrite P1 in P2. by injection P2.
Qed.

End AddressRoundTrip.

(** ** Parsing a sheet-qualified address *)

Section SheetQualified.
Context `{OsPath}.

Import ExcelFormulas.

Lemma contains_app (c : ascii) (s1 s2 : string) :
  Py.contains c (s1 +:+ s2) = Py.contains c s1 || Py.contains c s2.
Proof.
  induction s1 as [|a s1 IH]; [done|]. rewrite str_app_cons. cbn.
  by destruct (Ascii.eqb a c).
Qed.

Lemma all_chars_contains (p : ascii -> bool) (c : ascii) (s : string) :
  p c = false -> Py.all_chars p s = true -> Py.contains c s = false.
Proof.
  intros Hc. induction s as [|a s IH]; [done|]. cbn.
  intros [Ha Hs]%andb_true_iff.
  destruct (Ascii.eqb_spec a c) as [->|]; [congruence|auto].
Qed.

Lemma split_no_sep (sep : ascii) (s : string) :
  Py.contains sep s = false -> Py.split sep s = [s].
Proof.
  induction s as [|a s IH]; [done|]. cbn.
  destruct (Ascii.eqb a sep); [done|]. intros Hs. by rewrite IH.
Qed.

Lemma split_at_sep (sep : ascii) (s1 s2 : string) :
  Py.contains sep s1 = false ->
  Py.split sep (s1 +:+ String sep s2) = s1 :: Py.split sep s2.
Proof.
  induction s1 as [|a s1 IH].
  - intros _. rewrite str_app_nil_l. cbn. by rewrite Ascii.eqb_refl.
  - rewrite str_app_cons. cbn. destruct (Ascii.eqb a sep); [done|].
    intros Hs. by rewrite IH.
Qed.

Lemma lstrip_length (c : ascii) (s : string) :
  (String.length (Py.lstrip c s) <= String.length s)%nat.
Proof.
  induction s as [|a s IH]; [done|]. cbn.
  destruct (Ascii.eqb a c); cbn; lia.
Qed.

Lemma lstrip_fixed_head (c a : ascii) (s : string) :
  Py.lstrip c (String a s) = String a s -> Ascii.eqb a c = false.
Proof.
  cbn. destruct (Ascii.eqb a c); [|done]. intros E.
  pose proof (lstrip_length c s) as Hlen. rewrite E in Hlen.
  cbn in Hlen. lia.
Qed.

Lemma rstrip_app_sep (c : ascii) (s : string) :
  Py.rstrip c (s +:+ String c "") = Py.rstrip c s.
Proof.
  induction s as [|a s IH].
  - rewrite str_app_nil_l. cbn. by rewrite Ascii.eqb_refl.
  - rewrite str_app_cons. cbn. by rewrite IH.
Qed.

(** A name that neither begins nor ends with the quote comes back from
    between two quotes. *)
Lemma strip_quoted (c : ascii) (s : string) :
  Py.lstrip c s = s -> Py.rstrip c s = s ->
  Py.strip c (String c (s +:+ String c "")) = s.
Proof.
  intros Hl Hr. unfold Py.strip. cbn [Py.lstrip]. rewrite Ascii.eqb_refl.
  destruct s as [|a s].
  - rewrite str_app_nil_l. cbn. by rewrite Ascii.eqb_refl.
  - rewrite str_app_cons. cbn [Py.lstrip].
    rewrite (lstrip_fixed_head c a s Hl).
    by rewrite <- str_app_cons, rstrip_app_sep.
Qed.

Lemma address_no_bang col_str row_str row col :
  address_parts col_str row_str row col ->
  Py.contains "!" (col_str +:+ row_str) = false.
Proof.
  intros [Hu Hd _ _ _ _]. rewrite contains_app.
  by rewrite (all_chars_contains Xlsx.is_upper "!" col_str eq_refl Hu),
             (all_chars_contains Xlsx.is_digit "!" row_str eq_refl Hd).
Qed.

(** C6, as the code has it.  For every row [>= 0], every column from 0 to
    18277 (the columns of at most three letters, which are all that the
    pattern of [xl_cell_to_rowcol] accepts) and every sheet name that
    contains no exclamation mark and neither begins nor ends with an
    apostrophe, parsing the generated address gives back the sheet name,
    the row and the column. *)
Theorem C6_address_round_trip (row col : Z) (s : string) :
  0 <= row -> 0 <= col < 18278 ->
  Py.contains "!" s = false ->
  Py.lstrip "'" s = s -> Py.rstrip "'" s = s ->
  exists a,
    convert_to_excel_address row col "" s false false = Some a /\
    convert_from_excel_cell_address a = Ok (s, row, col).
Proof.
  intros Hr Hc Hbang Hl Hrs.
  destruct (cell_address_parts row col) as (l & d & E & P & Hlen);
    [lia..|].
  specialize (Hlen ltac:(lia)).
  pose proof (address_no_bang _ _ _ _ P) as Hnb.
  pose proof (xl_cell_to_rowcol_parts _ _ _ _ P Hlen) as Hparse.
  unfold cell_address, convert_to_excel_address in E.
  unfold convert_to_excel_address. cbn [String.eqb negb] in E |- *.
  destruct s as [|a s].
  - (* no sheet: the address is the bare cell *)
    exists (l +:+ d). split; [exact E|].
    unfold convert_from_excel_cell_address. rewrite Hnb. cbn.
    by rewrite Hparse.
  - cbn [String.eqb negb]. rewrite E. cbn [Py.fmt].
    eexists. split; [reflexivity|].
    set (name := String a s) in *. clearbody name.
    assert ("'" +:+ name +:+ "'!" +:+ (l +:+ d)
            = String "'" (name +:+ String "'" "") +:+ String "!" (l +:+ d))
      as -> by (by rewrite !str_app_cons, !str_app_nil_l, str_app_assoc,
                   str_app_cons, str_app_nil_l).
    unfold convert_from_excel_cell_address.
    rewrite contains_app. cbn [Py.contains]. rewrite Ascii.eqb_refl, orb_true_r.
    rewrite split_at_sep, (split_no_sep _ _ Hnb).
    + cbn -[Py.strip Xlsx.xl_cell_to_rowcol].
      rewrite strip_quoted by done. rewrite Hparse. reflexivity.
    + cbn [Py.contains].
      replace (Ascii.eqb "'" "!") with false by reflexivity.
      rewrite contains_app, Hbang. reflexivity.
Qed.

End SheetQualified.

Section AddressExamples.
Local Existing Instance Sample.paths.

Import ExcelFormulas.

(** C6, as the specification states it, fails for a sheet name with an
    exclamation mark in it: the parser cuts the address at the first such
    mark, takes what follows up to the next one for the cell, and the
    library pattern does not match that. *)
Lemma C6_counterexample :
  convert_to_excel_address 3 4 "" "a!b" false false = Some "'a!b'!E4" /\
  convert_from_excel_cell_address "'a!b'!E4" = Raise AttributeError /\
  convert_from_excel_cell_address "'a!b'!E4" <> Ok ("a!b", 3, 4).
Proof. split_and!; [reflexivity..|discriminate]. Qed.

(** It also fails past column 18277, the last one with three letters, *)
Lemma address_round_trip_fails_at_four_letters :
  convert_to_excel_address 0 18278 "" "Run1" false false
    = Some "'Run1'!AAAA1" /\
  convert_from_excel_cell_address "'Run1'!AAAA1" = Raise AttributeError.
Proof. split; vm_compute; reflexivity. Qed.

(** and for a sheet name that begins with an apostrophe. *)
Lemma address_round_trip_fails_at_leading_quote :
  convert_to_excel_address 0 0 "" "'x" false false = Some "''x'!A1" /\
  convert_from_excel_cell_address "''x'!A1" = Ok ("x", 0, 0).
Proof. split; vm_compute; reflexivity. Qed.

(** Row 9, column 27 of the sheet Run1 goes out as 'Run1'!AB10 and comes
    back. *)
Lemma C6_address_round_trip_witness :
  exists a,
    convert_to_excel_address 9 27 "" "Run1" false false = Some a /\
    convert_from_excel_cell_address a = Ok ("Run1", 9, 27).
Proof.
  apply (C6_address_round_trip 9 27 "Run1"); [lia|lia|reflexivity..].
Defined.

End AddressExamples.

(** ** The cell reader *)

Section CellReader.
Context `{OsPath} `{PyFloat}.

Import ExcelFormulas.

Lemma get_cell_value_found ws row col is_number dflt cell_data :
  cells_getitem (ws_cells ws) (cell_address row col) = Ok cell_data ->
  get_cell_value ws row col is_number dflt
    = Ok (coerce cell_data is_number dflt).
Proof.
  intros E. unfold get_cell_value, coerce. rewrite E. cbn.
  destruct is_number, (py_in cell_data Constants.EXCEL_ERROR_VALUES); cbn;
    try reflexivity.
  destruct (py_float cell_data); reflexivity.
Qed.

Lemma get_cell_value_lookup_raises ws row col is_number dflt e :
  cells_getitem (ws_cells ws) (cell_address row col) = Raise e ->
  get_cell_value ws row col is_number dflt = Raise e.
Proof. intros E. unfold get_cell_value. by rewrite E. Qed.

Lemma cells_getitem_nonneg (cells : gmap string value) row col :
  0 <= row -> 0 <= col ->
  exists a, cell_address row col = Some a /\
            cells_getitem cells (cell_address row col)
              = Ok (default VNone (cells !! a)).
Proof.
  intros Hr Hc. rewrite cell_address_some by done. eauto.
Qed.

(** C4, as the code has it.  The [try] of [get_cell_value] covers the
    coercion only.  Once the cell has been looked up, no failure escapes:
    an error marker and every failed coercion give the default value.  The
    lookup itself precedes the [try]: it succeeds for the cells a
    worksheet has, rows 0 to 1048575 and columns 0 to 18277, and when it
    fails its exception is passed on. *)
Theorem C4_get_cell_value_absorbs_coercion_failures
    ws row col is_number dflt :
  (0 <= row < 1048576 -> 0 <= col < 18278 ->
     exists cell_data,
       cells_getitem (ws_cells ws) (cell_address row col) = Ok cell_data /\
       get_cell_value ws row col is_number dflt
         = Ok (coerce cell_data is_number dflt)) /\
  (forall cell_data,
     cells_getitem (ws_cells ws) (cell_address row col) = Ok cell_data ->
     get_cell_value ws row col is_number dflt
       = Ok (coerce cell_data is_number dflt) /\
     returns (get_cell_value ws row col is_number dflt) /\
     (py_in cell_data Constants.EXCEL_ERROR_VALUES = true ->
        get_cell_value ws row col is_number dflt = Ok dflt) /\
     (is_number = true -> raises (py_float cell_data) ->
        get_cell_value ws row col is_number dflt = Ok dflt)) /\
  (forall e,
     cells_getitem (ws_cells ws) (cell_address row col) = Raise e ->
     get_cell_value ws row col is_number dflt = Raise e).
Proof.
  split_and!.
  - intros Hr Hc.
    destruct (cells_getitem_nonneg (ws_cells ws) row col) as (a & Ha & E);
      [lia..|].
    eexists. split; [exact E|]. by apply get_cell_value_found.
  - intros cell_data E.
    rewrite (get_cell_value_found _ _ _ _ _ _ E). split_and!.
    + done.
    + by eexists.
    + intros Hin. unfold coerce. by rewrite Hin.
    + intros -> [e He]. unfold coerce. rewrite He.
      by destruct (py_in _ _).
  - intros e. apply get_cell_value_lookup_raises.
Qed.

End CellReader.

Section CellReaderExamples.
Local Existing Instance Sample.floats.
Local Existing Instance Sample.paths.

Import ExcelFormulas.

(** C4, as the specification states it, fails: the lookup of the cell is
    outside the [try].  For row [-1] the address function yields [None],
    indexing the worksheet with it raises, and [get_cell_value] raises with
    it instead of returning the default. *)
Lemma C4_counterexample :
  cell_address (-1) 0 = None /\
  get_cell_value (Sample.marker_sheet "12") (-1) 0 true (VStr "NA()")
    = Raise TypeError /\
  ~ returns (get_cell_value (Sample.marker_sheet "12") (-1) 0 true
               (VStr "NA()")).
Proof.
  split_and!; [reflexivity..|]. intros [v Hv]. vm_compute in Hv. discriminate.
Qed.

(** A cell holding the text abc, read as a number: the default. *)
Lemma C4_get_cell_value_absorbs_coercion_failures_witness :
  get_cell_value (Sample.marker_sheet "abc") 0 0 true (VStr "NA()")
    = Ok (VStr "NA()").
Proof.
  destruct (C4_get_cell_value_absorbs_coercion_failures
              (Sample.marker_sheet "abc") 0 0 true (VStr "NA()"))
    as (Hfound & _ & _).
  destruct (Hfound ltac:(lia) ltac:(lia)) as (cell_data & Hcell & Hval).
  rewrite Hval. vm_compute in Hcell. injection Hcell as <-. reflexivity.
Defined.

End CellReaderExamples.

(** ** The display name of a source file *)

Section FileNames.
Context `{OsPath}.

Lemma split_not_nil (sep : ascii) (s : string) : Py.split sep s <> [].
Proof.
  induction s as [|a s IH]; cbn; [done|].
  destruct (Ascii.eqb a sep); [done|]. by destruct (Py.split sep s).
Qed.

Lemma get_filename_first_dot (stem rest : string) :
  Py.contains "." stem = false ->
  Py.contains "/" (stem +:+ String "." rest) = false ->
  Py.contains "\" (stem +:+ String "." rest) = false ->
  FileHandler.get_filename (stem +:+ String "." rest) = Ok stem.
Proof.
  intros Hdot Hslash Hback. unfold FileHandler.get_filename.
  rewrite Hslash, Hback. cbn [orb].
  by rewrite split_at_sep.
Qed.

(** C9.  [get_filename] keeps what precedes the first dot of the base
    name, not what precedes the extension: a name without separators is cut
    at its first dot whatever follows, and for "run.v2.xlsx" the result is
    "run", where the stem is "run.v2". *)
Theorem C9_get_filename_cuts_at_first_dot :
  FileHandler.get_filename "run.v2.xlsx" = Ok "run" /\
  FileHandler.get_filename "run.v2.xlsx" <> Ok "run.v2" /\
  (forall stem rest,
     Py.contains "." stem = false ->
     Py.contains "/" (stem +:+ String "." rest) = false ->
     Py.contains "\" (stem +:+ String "." rest) = false ->
     FileHandler.get_filename (stem +:+ String "." rest) = Ok stem).
Proof.
  split_and!; [reflexivity|discriminate|apply get_filename_first_dot].
Qed.

Lemma get_filename_returns (file_path : string) :
  returns (FileHandler.get_filename file_path).
Proof.
  unfold FileHandler.get_filename, Py.index.
  match goal with |- context [Py.split ?c ?p] =>
    pose proof (split_not_nil c p); destruct (Py.split c p) end;
    [done|]. by eexists.
Qed.

End FileNames.



(** ** The point-analysis index *)

Section PointAnalysis.
Context `{OsPath} `{PyFloat}.

Import ExcelFormulas Collater.

Lemma cell_address_is_some (row col : Z) :
  0 <= row -> 0 <= col -> exists a, cell_address row col = Some a.
Proof. intros. rewrite cell_address_some by done. eauto. Qed.

Lemma insert_point_analysis_loop_cons pt si title fi stride pa i0 h rest
    aL0 aF :
  cell_address si (stride * i0) = Some aL0 ->
  cell_address si (1 + fi) = Some aF ->
  insert_point_analysis_loop pt si title fi stride pa i0 (h :: rest)
  = insert_point_analysis_loop
      (<[aF := VStr (point_formula pa fi stride i0 title)]>
         (<[aL0 := VStr (point_label title h)]> pt))
      si title fi stride pa (i0 + 1) rest.
Proof.
  intros E1 E2. cbn [insert_point_analysis_loop]. by rewrite E1, E2.
Qed.

(** What the loop of [insert_point_analysis_formula] leaves behind, for
    the headers [hs] numbered from [i0] on: the formula cell holds the
    formula of the last header, a cell that is neither the formula cell
    nor a label cell is as before, and a label is in place unless the
    formula cell or a later label has taken its cell. *)
Lemma insert_point_analysis_loop_spec pt si title fi stride pa i0 hs aF :
  0 <= si -> 0 <= stride -> 0 <= i0 ->
  cell_address si (1 + fi) = Some aF ->
  exists pt',
    insert_point_analysis_loop pt si title fi stride pa i0 hs = Ok pt' /\
    (hs <> [] ->
     pt' !! aF = Some (VStr (point_formula pa fi stride
                               (i0 + Z.of_nat (length hs) - 1) title))) /\
    (forall k, k <> aF ->
       (forall j, (j < length hs)%nat ->
                  cell_address si (stride * (i0 + Z.of_nat j)) <> Some k) ->
       pt' !! k = pt !! k) /\
    (forall j hdr aL,
       hs !! j = Some hdr ->
       cell_address si (stride * (i0 + Z.of_nat j)) = Some aL ->
       aL <> aF ->
       (forall j', (j < j' < length hs)%nat ->
                   cell_address si (stride * (i0 + Z.of_nat j')) <> Some aL) ->
       pt' !! aL = Some (VStr (point_label title hdr))).
Proof.
  intros Hsi Hst Hi0 HaF. revert pt i0 Hi0.
  induction hs as [|h rest IH]; intros pt i0 Hi0.
  { exists pt. split_and!; [done|done|done|]. intros j ? ? Hj. by destruct j. }
  destruct (cell_address_is_some si (stride * i0)) as [aL0 HaL0]; [lia..|].
  rewrite (insert_point_analysis_loop_cons _ _ _ _ _ _ _ _ _ _ _ HaL0 HaF).
  destruct (IH (<[aF := VStr (point_formula pa fi stride i0 title)]>
                  (<[aL0 := VStr (point_label title h)]> pt)) (i0 + 1))
    as (pt' & Hrun & Hform & Hframe & Hlabel); [lia|].
  exists pt'. split_and!.
  - exact Hrun.
  - intros _. destruct rest as [|h' rest'].
    + cbn in Hrun. injection Hrun as <-. rewrite lookup_insert_eq.
      do 3 f_equal. cbn. lia.
    + rewrite Hform by done. do 3 f_equal. cbn [length]. lia.
  - intros k Hk Hlabels. rewrite Hframe; [|done|].
    + rewrite lookup_insert_ne by done. rewrite lookup_insert_ne; [done|].
      intros ->. apply (Hlabels 0%nat); [cbn; lia|].
      by rewrite Z.add_0_r.
    + intros j Hj. replace (i0 + 1 + Z.of_nat j) with (i0 + Z.of_nat (S j)) by lia.
      apply Hlabels. cbn. lia.
  - intros j hdr aL Hj HaL Hne Hlater. destruct j as [|j].
    + assert (hdr = h) as -> by (cbn in Hj; congruence).
      change (Z.of_nat 0) with 0 in HaL. rewrite Z.add_0_r, HaL0 in HaL.
      assert (aL = aL0) as -> by congruence. rewrite Hframe; [|done|].
      * rewrite lookup_insert_ne by done. by rewrite lookup_insert_eq.
      * intros j' Hj'.
        replace (i0 + 1 + Z.of_nat j') with (i0 + Z.of_nat (S j')) by lia.
        apply Hlater. cbn. lia.
    + apply (Hlabel j hdr aL); [done| |done|].
      * by replace (i0 + 1 + Z.of_nat j) with (i0 + Z.of_nat (S j)) by lia.
      * intros j' Hj'.
        replace (i0 + 1 + Z.of_nat j') with (i0 + Z.of_nat (S j')) by lia.
        apply Hlater. cbn. lia.
Qed.

Lemma point_formula_inj pa fi stride title i j :
  0 <= fi + stride * i + 1 -> 0 <= fi + stride * j + 1 ->
  point_formula pa fi stride i title = point_formula pa fi stride j title ->
  stride * i = stride * j.
Proof.
  intros Hi Hj E. unfold point_formula in E.
  do 3 apply (inj (String.app _)) in E.
  assert (forall n rest, 0 <= n ->
            Xlsx.span Xlsx.is_digit (Py.str_of_int n +:+ ",,," +:+ rest)
            = (Py.str_of_int n, ",,," +:+ rest)) as Hspan.
  { intros n rest Hn. apply span_app; [by apply str_of_int_digits|done]. }
  pose proof (Hspan _ (Py.dquote +:+ title +:+ Py.dquote +:+ "))") Hi) as S1.
  pose proof (Hspan _ (Py.dquote +:+ title +:+ Py.dquote +:+ "))") Hj) as S2.
  rewrite E, S2 in S1. injection S1 as S1.
  pose proof (int_of_digits_str_of_int _ Hi) as D1.
  pose proof (int_of_digits_str_of_int _ Hj) as D2.
  rewrite <- S1, D2 in D1. injection D1. lia.
Qed.

Lemma point_formula_not_guarded pa fi stride i title formula dflt :
  point_formula pa fi stride i title <> error_guard_formula formula dflt.
Proof.
  unfold point_formula, error_guard_formula.
  destruct dflt; rewrite !str_app_cons; discriminate.
Qed.

(** C10.  In a call of [insert_point_analysis_formula] with [H >= 1]
    target headers (row and file index not negative, stride positive, as
    in every call the collater makes), every round of the loop writes its
    formula to the one cell [(sheet_index, 1 + file_index)].  After the
    call that cell holds the formula of the last header only, the one
    whose [ADDRESS] column is [file_index + stride * (H - 1)] counted from
    one, and no formula of an earlier header.  The labels go to the [H]
    different cells of columns [stride * header_index], where each one is
    still found after the call unless that column is the formula
    column. *)
Theorem C10_formula_cell_keeps_last_header pt si title fi stride headers :
  0 <= si -> 0 <= fi -> 0 < stride -> (1 <= length headers)%nat ->
  let last := Z.of_nat (length headers) - 1 in
  let pa := cell_address 0 (1 + fi) in
  exists pt' aF,
    insert_point_analysis_formula pt si title fi stride headers = Ok pt' /\
    cell_address si (1 + fi) = Some aF /\
    (forall pt0 i h, 0 <= i ->
       exists p,
         insert_point_analysis_loop pt0 si title fi stride pa i [h] = Ok p /\
         p !! aF = Some (VStr (point_formula pa fi stride i title))) /\
    pt' !! aF = Some (VStr (point_formula pa fi stride last title)) /\
    point_formula pa fi stride last title
      = "=INDIRECT(ADDRESS(" +:+ Py.fmt pa +:+ "+1, "
          +:+ Py.str_of_int (fi + stride * last + 1)
          +:+ ",,," +:+ Py.dquote +:+ title +:+ Py.dquote +:+ "))" /\
    (forall i, 0 <= i < last ->
       pt' !! aF <> Some (VStr (point_formula pa fi stride i title))) /\
    (forall i j, 0 <= i -> 0 <= j -> i <> j ->
       cell_address si (stride * i) <> cell_address si (stride * j)) /\
    (forall i hdr, headers !! i = Some hdr ->
       stride * Z.of_nat i <> 1 + fi ->
       exists aL,
         cell_address si (stride * Z.of_nat i) = Some aL /\
         pt' !! aL = Some (VStr (point_label title hdr))).
Proof.
  intros Hsi Hfi Hst Hlen last pa.
  destruct (cell_address_is_some si (1 + fi)) as [aF HaF]; [lia..|].
  assert (forall i j, 0 <= i -> 0 <= j -> i <> j ->
            cell_address si (stride * i) <> cell_address si (stride * j))
    as Hdistinct.
  { intros i j Hi Hj Hij E.
    apply cell_address_inj in E as [_ E]; [nia|lia|nia|lia|nia]. }
  destruct (insert_point_analysis_loop_spec pt si title fi stride pa 0
              headers aF) as (pt' & Hrun & Hform & _ & Hlabel);
    [lia..|done|].
  assert (headers <> []) as Hne by (destruct headers; [cbn in Hlen; lia|done]).
  exists pt', aF. split_and!; [exact Hrun|exact HaF| | |reflexivity| |exact Hdistinct|].
  - intros pt0 i h Hi.
    destruct (insert_point_analysis_loop_spec pt0 si title fi stride pa i
                [h] aF) as (p & Hp & Hpf & _); [lia..|done|].
    exists p. split; [exact Hp|]. rewrite Hpf by done.
    do 3 f_equal. cbn. lia.
  - rewrite Hform by done. do 3 f_equal.
  - intros i Hi. rewrite Hform by done. intros E.
    assert (point_formula pa fi stride (0 + Z.of_nat (length headers) - 1)
              title = point_formula pa fi stride i title) as E'
      by congruence.
    subst last. apply point_formula_inj in E'; nia.
  - intros i hdr Hi Hcol.
    destruct (cell_address_is_some si (stride * Z.of_nat i)) as [aL HaL];
      [lia|nia|].
    exists aL. split; [exact HaL|].
    apply (Hlabel i hdr aL); [done|by rewrite Z.add_0_l| |].
    + intros ->. rewrite <- HaF in HaL.
      apply cell_address_inj in HaL as [_ E]; [lia|lia|nia|lia|lia].
    + intros j' Hj'. rewrite Z.add_0_l, <- HaL.
      apply Hdistinct; lia.
Qed.

(** C8, as the code has it.  The formula that
    [insert_point_analysis_formula] leaves in the cell
    [(sheet_index, 1 + file_index)], and every formula it writes on the
    way, is the bare text [=INDIRECT(ADDRESS(...))]: it is not wrapped in
    [IFERROR], and is not the result of [error_guard_formula] for any
    formula and default. *)
Theorem C8_point_formula_is_bare_indirect pt si title fi stride headers :
  0 <= si -> 0 <= fi -> 0 <= stride -> headers <> [] ->
  exists pt' aF text,
    insert_point_analysis_formula pt si title fi stride headers = Ok pt' /\
    cell_address si (1 + fi) = Some aF /\
    pt' !! aF = Some (VStr text) /\
    (exists rest, text = "=INDIRECT(ADDRESS(" +:+ rest) /\
    (forall formula dflt, text <> error_guard_formula formula dflt) /\
    (forall i formula dflt,
       point_formula (cell_address 0 (1 + fi)) fi stride i title
         <> error_guard_formula formula dflt).
Proof.
  intros Hsi Hfi Hst Hne.
  destruct (cell_address_is_some si (1 + fi)) as [aF HaF]; [lia..|].
  destruct (insert_point_analysis_loop_spec pt si title fi stride
              (cell_address 0 (1 + fi)) 0 headers aF)
    as (pt' & Hrun & Hform & _); [lia..|done|].
  eexists pt', aF, _. split_and!; [exact Hrun|exact HaF|by apply Hform| | |].
  - by eexists.
  - intros formula dflt. apply point_formula_not_guarded.
  - intros i formula dflt. apply point_formula_not_guarded.
Qed.

End PointAnalysis.

Section PointAnalysisExamples.
Local Existing Instance Sample.floats.
Local Existing Instance Sample.paths.

Import ExcelFormulas Collater.

(** C8, as the specification states it, fails: for the sheet "Run1" at
    index 2, file 0, stride 4 and the headers Average and STD, the formula
    cell B3 ends up with the text below, which begins with [=INDIRECT(] and
    carries no guard. *)
Lemma C8_counterexample :
  exists pt',
    insert_point_analysis_formula ∅ 2 "Run1" 0 4 ["Average"; "STD"] = Ok pt' /\
    pt' !! "B3" = Some (VStr (point_formula (Some "B1") 0 4 1 "Run1")) /\
    point_formula (Some "B1") 0 4 1 "Run1"
      = "=INDIRECT(ADDRESS(B1+1, 5,,," +:+ Py.dquote +:+ "Run1"
          +:+ Py.dquote +:+ "))" /\
    forall formula dflt,
      point_formula (Some "B1") 0 4 1 "Run1"
        <> error_guard_formula formula dflt.
Proof.
  eexists. split_and!.
  - vm_compute. reflexivity.
  - vm_compute. reflexivity.
  - reflexivity.
  - intros formula dflt. apply point_formula_not_guarded.
Qed.

(** The formula cell of the sheet Run1 for file 0 and two headers. *)
Lemma C8_point_formula_is_bare_indirect_witness :
  exists pt' aF text,
    insert_point_analysis_formula ∅ 2 "Run1" 0 4 ["Average"; "STD"] = Ok pt' /\
    cell_address 2 (1 + 0) = Some aF /\
    pt' !! aF = Some (VStr text) /\
    forall formula dflt, text <> error_guard_formula formula dflt.
Proof.
  destruct (C8_point_formula_is_bare_indirect ∅ 2 "Run1" 0 4
              ["Average"; "STD"])
    as (pt' & aF & text & Hrun & HaF & Hcell & _ & Hbare & _);
    [lia|lia|lia|discriminate|].
  exists pt', aF, text. auto.
Defined.

(** With the headers Average and STD, cell B3 ends with the formula of STD
    (header 1) and not with that of Average (header 0). *)
Lemma C10_formula_cell_keeps_last_header_witness :
  exists pt',
    insert_point_analysis_formula ∅ 2 "Run1" 0 4 ["Average"; "STD"] = Ok pt' /\
    pt' !! "B3" = Some (VStr (point_formula (Some "B1") 0 4 1 "Run1")) /\
    pt' !! "B3" <> Some (VStr (point_formula (Some "B1") 0 4 0 "Run1")).
Proof.
  destruct (C10_formula_cell_keeps_last_header ∅ 2 "Run1" 0 4
              ["Average"; "STD"])
    as (pt' & aF & Hrun & HaF & _ & Hlast & _ & Hearlier & _);
    [lia|lia|lia|cbn; lia|].
  vm_compute in HaF. injection HaF as <-.
  exists pt'. split_and!; [exact Hrun|exact Hlast|].
  apply (Hearlier 0). cbn. lia.
Defined.

End PointAnalysisExamples.

(** ** Writes into the destination workbook *)

Section Workbook.
Context `{OsPath} `{PyFloat}.

Import ExcelFormulas Collater.

Lemma sheet_setitem_found wb title cells row col a v :
  wb_sheets wb !! title = Some cells ->
  cell_address row col = Some a ->
  sheet_setitem wb title (cell_address row col) v
  = Ok {| wb_sheetnames := wb_sheetnames wb;
          wb_sheets := <[title := <[a := v]> cells]> (wb_sheets wb) |}.
Proof. intros Hs Ha. unfold sheet_setitem. by rewrite Hs, Ha. Qed.

Lemma wf_workbook_insert pt_title wb title cells :
  wf_workbook pt_title wb ->
  wf_workbook pt_title {| wb_sheetnames := wb_sheetnames wb;
                          wb_sheets := <[title := cells]> (wb_sheets wb) |}.
Proof.
  intros [Hpt Hnames]. split; cbn.
  - rewrite lookup_insert. case_decide; [by eexists|done].
  - intros name Hname. rewrite lookup_insert.
    case_decide; [by eexists|auto].
Qed.

Lemma wf_workbook_create pt_title wb title :
  wf_workbook pt_title wb -> wf_workbook pt_title (create_sheet wb title).
Proof.
  intros [Hpt Hnames]. split; cbn.
  - rewrite lookup_insert. case_decide; [by eexists|done].
  - intros name [Hname| ->%list_elem_of_singleton]%elem_of_app.
    + rewrite lookup_insert. case_decide; [by eexists|auto].
    + rewrite lookup_insert_eq. by eexists.
Qed.

Lemma wf_workbook_fresh pt_title :
  wf_workbook pt_title (create_sheet Workbook pt_title).
Proof.
  split; cbn.
  - rewrite lookup_insert_eq. by eexists.
  - intros name Hname. rewrite lookup_insert. case_decide; [by eexists|].
    apply elem_of_cons in Hname as [->|Hname].
    + exists ∅. apply lookup_insert_eq.
    + apply list_elem_of_singleton in Hname. congruence.
Qed.

Lemma label_file_returns pt_title stride excel_filename target_headers :
  0 <= stride ->
  forall wb idx, 0 <= idx -> wf_workbook pt_title wb ->
    exists wb', label_file wb pt_title stride excel_filename idx target_headers
                = Ok wb' /\
                wf_workbook pt_title wb' /\
                wb_sheetnames wb' = wb_sheetnames wb.
Proof.
  intros Hst. induction target_headers as [|h rest IH]; intros wb idx Hidx Hwf.
  { by exists wb. }
  destruct (Hwf) as [[cells Hcells] _].
  destruct (cell_address_is_some 1 (1 + stride * idx)) as [a Ha]; [lia|nia|].
  cbn [label_file]. rewrite (sheet_setitem_found _ _ _ _ _ _ _ Hcells Ha).
  cbn [mbind result_bind].
  destruct (IH {| wb_sheetnames := wb_sheetnames wb;
                  wb_sheets := <[pt_title := <[a := VStr (excel_filename +:+ " (" +:+ h +:+ ")")]> cells]>
                                 (wb_sheets wb) |} (idx + 1))
    as (wb' & Hrun & Hwf' & Hnames); [lia|by apply wf_workbook_insert|].
  exists wb'. by rewrite Hrun.
Qed.

Lemma mapM_returns {A B} (f : A -> result B) (l : list A) :
  (forall x, returns (f x)) ->
  exists ys, mapM f l = Ok ys /\ length ys = length l.
Proof.
  intros Hf. induction l as [|x l (ys & E & Hlen)].
  - by exists [].
  - destruct (Hf x) as [y Hy]. exists (y :: ys). cbn.
    rewrite Hy. cbn. rewrite E. cbn. by rewrite Hlen.
Qed.

Lemma process_sheet_raises pt_title target_headers file_index stride
    excel_filename st named_sheet :
  process_sheet pt_title target_headers file_index stride excel_filename st
    named_sheet = Raise AttributeError.
Proof. by destruct named_sheet. Qed.

(** A file with no sheet is passed over; the first sheet of a file ends
    the run. *)
Lemma process_file_sheets pt_title target_headers excel_filenames stride
    files st i f name :
  0 <= stride -> 0 <= i ->
  files !! Z.to_nat i = Some f ->
  excel_filenames !! Z.to_nat i = Some name ->
  wf_workbook pt_title (st_wb st) ->
  match f.2 with
  | [] => exists st',
            process_file pt_title target_headers excel_filenames stride files
              st i = Ok st' /\
            wf_workbook pt_title (st_wb st')
  | _ :: _ => process_file pt_title target_headers excel_filenames stride
                files st i = Raise AttributeError
  end.
Proof.
  intros Hst Hi Hf Hname Hwf. unfold process_file, Py.index.
  rewrite Hf, Hname. cbn [mbind result_bind].
  destruct (label_file_returns pt_title stride name target_headers Hst
              (st_wb st) 0) as (wb' & -> & Hwf' & _); [lia|done|].
  cbn [mbind result_bind].
  destruct f.2 as [|named_sheet sheets]; cbn [for_each].
  - eexists. split; [reflexivity|done].
  - by rewrite process_sheet_raises.
Qed.

Lemma for_each_process_file_raises pt_title target_headers excel_filenames
    stride files :
  0 <= stride -> length excel_filenames = length files ->
  forall idxs st,
    (forall i, i ∈ idxs -> 0 <= i < Z.of_nat (length files)) ->
    (exists i f, i ∈ idxs /\ files !! Z.to_nat i = Some f /\ f.2 <> []) ->
    wf_workbook pt_title (st_wb st) ->
    for_each (process_file pt_title target_headers excel_filenames stride files)
      idxs st = Raise AttributeError.
Proof.
  intros Hst Hlen. induction idxs as [|i idxs IH]; intros st Hrange Hsheet Hwf.
  { destruct Hsheet as (i & f & Hi & _). by apply elem_of_nil in Hi. }
  assert (0 <= i < Z.of_nat (length files)) as Hi by (apply Hrange; left).
  destruct (lookup_lt_is_Some_2 files (Z.to_nat i)) as [f Hf]; [lia|].
  destruct (lookup_lt_is_Some_2 excel_filenames (Z.to_nat i)) as [name Hname];
    [lia|].
  pose proof (process_file_sheets pt_title target_headers excel_filenames
                stride files st i f name Hst ltac:(lia) Hf Hname Hwf) as Hstep.
  cbn [for_each]. destruct f.2 as [|named_sheet sheets] eqn:Hsheets.
  - destruct Hstep as (st' & -> & Hwf'). cbn [mbind result_bind].
    apply IH; [|by destruct Hsheet as (j & g & [->|Hj]%elem_of_cons & Hg & Hne);
                   [congruence|eauto]|done].
    intros j Hj. apply Hrange. by right.
  - by rewrite Hstep.
Qed.

(** Whenever one of the source files has a sheet, the run raises
    [AttributeError]. *)
Lemma collate_excel_files_raises files target_headers :
  (exists f, f ∈ files /\ f.2 <> []) ->
  collate_excel_files files target_headers = Raise AttributeError.
Proof.
  intros (f & Hf & Hne). unfold collate_excel_files.
  destruct (mapM_returns (fun f => FileHandler.get_filename f.1) files)
    as (names & -> & Hlen); [intros; apply get_filename_returns|].
  cbn [mbind result_bind].
  assert (files <> []) by (intros ->; by apply elem_of_nil in Hf).
  assert (truthy (Z.of_nat (length files)) = true) as ->.
  { unfold truthy. destruct files; [done|]. cbn [length].
    apply negb_true_iff, Z.eqb_neq. lia. }
  set (pt_title := create_sheet_name Constants.POINT_ANALYSIS_LABEL).
  pose proof (wf_workbook_fresh pt_title) as Hwf. clearbody pt_title.
  destruct (Hwf) as [[cells Hcells] _].
  rewrite (sheet_setitem_found _ _ _ 0 0 "A1" _ Hcells eq_refl).
  cbn [mbind result_bind].
  rewrite for_each_process_file_raises; [done|lia|done| | |].
  - intros i Hi%elem_of_range. lia.
  - apply list_elem_of_lookup in Hf as [i Hi]. exists (Z.of_nat i), f.
    rewrite Nat2Z.id. split_and!; [|done..].
    apply elem_of_range. apply lookup_lt_Some in Hi. lia.
  - by apply wf_workbook_insert.
Qed.

End Workbook.

(** ** One column of a sheet *)

Section OneColumn.
Context `{OsPath} `{PyFloat}.

Import ExcelFormulas Collater.

Lemma invert_always_truthy (b : bool) : truthy (py_invert b) = true.
Proof. by destruct b. Qed.

Lemma list_index_found (x : string) (l : list string) :
  In x l -> exists i, Py.list_index x l = Ok i /\ 0 <= i.
Proof.
  induction l as [|y l IH]; [done|]. intros Hin. cbn.
  destruct (String.eqb_spec y x) as [->|Hne]; [exists 0; done|].
  destruct IH as (i & -> & Hi); [by destruct Hin|].
  exists (1 + i). split; [done|lia].
Qed.

Lemma py_in_true (v : value) (l : list string) :
  py_in v l = true -> exists s, v = VStr s /\ In s l.
Proof.
  destruct v; try done. cbn. intros (x & Hx & E)%existsb_exists.
  apply String.eqb_eq in E as ->. eauto.
Qed.

Lemma for_each_app {A S} (body : S -> A -> result S) (l1 l2 : list A) (s : S) :
  for_each body (l1 ++ l2) s = s' ← for_each body l1 s; for_each body l2 s'.
Proof.
  revert s. induction l1 as [|x l1 IH]; intros s; [done|]. cbn.
  destruct (body s x); cbn; [apply IH|done].
Qed.

Lemma range_nonneg (lo hi r : Z) : 0 <= lo -> r ∈ Py.range lo hi -> 0 <= r.
Proof. intros Hlo Hr%elem_of_range. lia. Qed.

(** The rows of one source column, copied: every row of the list is read
    through [get_cell_value] and its value put at the same row of column
    [dst_col]; no other cell of the destination sheet changes, and no other
    sheet. *)
Lemma transfer_rows_spec dst_title sheet col dst_col :
  0 <= col -> 0 <= dst_col ->
  forall rows wb cells,
    (forall r, r ∈ rows -> 0 <= r) ->
    wb_sheets wb !! dst_title = Some cells ->
    exists cells',
      transfer_rows wb dst_title sheet col dst_col rows
      = Ok {| wb_sheetnames := wb_sheetnames wb;
              wb_sheets := <[dst_title := cells']> (wb_sheets wb) |} /\
      (forall k, (forall r, r ∈ rows -> cell_address r dst_col <> Some k) ->
                 cells' !! k = cells !! k) /\
      (NoDup rows ->
       forall r, r ∈ rows ->
         exists a cell_data,
           cell_address r dst_col = Some a /\
           cells_getitem (ws_cells sheet) (cell_address r col) = Ok cell_data /\
           get_cell_value sheet r col true ERROR_VALUE
             = Ok (coerce cell_data true ERROR_VALUE) /\
           cells' !! a = Some (coerce cell_data true ERROR_VALUE)).
Proof.
  intros Hcol Hdst. induction rows as [|r rows IH]; intros wb cells Hrows Hcells.
  { exists cells. split_and!.
    - destruct wb as [names sheets]. cbn in *. by rewrite insert_id.
    - done.
    - intros _ r Hr. by apply elem_of_nil in Hr. }
  assert (0 <= r) as Hr by (apply Hrows; left).
  destruct (cells_getitem_nonneg (ws_cells sheet) r col Hr Hcol)
    as (src & Hsrc & Hget).
  destruct (cell_address_is_some r dst_col Hr Hdst) as [a Ha].
  pose proof (get_cell_value_found sheet r col true ERROR_VALUE _ Hget) as Hval.
  destruct (IH {| wb_sheetnames := wb_sheetnames wb;
                  wb_sheets := <[dst_title := <[a := coerce (default VNone (ws_cells sheet !! src)) true ERROR_VALUE]> cells]>
                                 (wb_sheets wb) |}
               (<[a := coerce (default VNone (ws_cells sheet !! src)) true ERROR_VALUE]> cells))
    as (cells' & Hrun & Hframe & Hcopied).
  { intros r' Hr'. apply Hrows. by right. }
  { cbn. apply lookup_insert_eq. }
  exists cells'. split_and!.
  - cbn [transfer_rows]. rewrite Hval. cbn [mbind result_bind].
    rewrite (sheet_setitem_found _ _ _ _ _ _ _ Hcells Ha).
    cbn [mbind result_bind]. rewrite Hrun. cbn.
    by rewrite insert_insert_eq.
  - intros k Hk. rewrite Hframe.
    + rewrite lookup_insert_ne; [done|]. intros ->.
      by apply (Hk r); [left|].
    + intros r' Hr'. apply Hk. by right.
  - intros [Hnotin Hnodup]%NoDup_cons r' [->|Hr']%elem_of_cons.
    + exists a, (default VNone (ws_cells sheet !! src)).
      split_and!; [done..|].
      rewrite Hframe; [apply lookup_insert_eq|].
      intros r' Hr' E. rewrite <- Ha in E.
      apply cell_address_inj in E as [-> _]; [done|..|done]; try done.
      apply Hrows. by right.
    + by apply Hcopied.
Qed.

Lemma scan_column_other pt_title target_headers fi stride excel_filename
    sheetname sheet row_count st flag col :
  0 <= col ->
  is_target_column target_headers sheet col = false ->
  scan_column pt_title target_headers fi stride excel_filename sheetname sheet
    row_count (st, flag) col = Ok (st, flag).
Proof.
  intros Hcol. unfold is_target_column, scan_column.
  destruct (cells_getitem_nonneg (ws_cells sheet) 0 col) as (a & _ & ->);
    [lia..|].
  cbn [mbind result_bind]. by intros ->.
Qed.

(** The body of the scan for a column with a target header [hdr], the
    [h]-th of the list: the point-analysis formulas are written again
    (whatever the flag says), the destination sheet gets the header
    "file name (hdr)" in row 0 of column [fi + stride * h], and the rows 1
    to [row_count] of the source column below it. *)
Lemma scan_column_target pt_title target_headers fi stride excel_filename
    sheetname sheet row_count st flag col :
  0 <= col -> 0 <= fi -> 0 <= stride ->
  wf_workbook pt_title (st_wb st) ->
  is_target_column target_headers sheet col = true ->
  exists hdr h si st' cells',
    cells_getitem (ws_cells sheet) (cell_address 0 col) = Ok (VStr hdr) /\
    Py.list_index hdr target_headers = Ok h /\ 0 <= h /\
    scan_column pt_title target_headers fi stride excel_filename sheetname
      sheet row_count (st, flag) col = Ok (st', true) /\
    st_calls st' = (si, sheetname, fi) :: st_calls st /\
    st_max_row_count st' = st_max_row_count st /\
    wf_workbook pt_title (st_wb st') /\
    wb_sheets (st_wb st') !! sheetname = Some cells' /\
    (exists a, cell_address 0 (fi + stride * h) = Some a /\
               cells' !! a
               = Some (VStr (excel_filename +:+ " (" +:+ hdr +:+ ")"))) /\
    (forall r, 1 <= r <= row_count ->
       exists a cell_data,
         cell_address r (fi + stride * h) = Some a /\
         cells_getitem (ws_cells sheet) (cell_address r col) = Ok cell_data /\
         get_cell_value sheet r col true ERROR_VALUE
           = Ok (coerce cell_data true ERROR_VALUE) /\
         cells' !! a = Some (coerce cell_data true ERROR_VALUE)).
Proof.
  intros Hcol Hfi Hst Hwf Htarget. unfold is_target_column in Htarget.
  destruct (cells_getitem_nonneg (ws_cells sheet) 0 col) as (a0 & _ & Hhead);
    [lia..|].
  rewrite Hhead in Htarget.
  destruct (py_in_true _ _ Htarget) as (hdr & Hv & Hin).
  rewrite Hv in Hhead, Htarget.
  destruct (list_index_found hdr target_headers Hin) as (h & Hh & Hh0).
  (* the destination sheet, found or made *)
  set (wb1 := if existsb (String.eqb sheetname) (wb_sheetnames (st_wb st))
              then st_wb st else create_sheet (st_wb st) sheetname).
  assert (wf_workbook pt_title wb1 /\ In sheetname (wb_sheetnames wb1))
    as [Hwf1 Hname1].
  { subst wb1.
    destruct (existsb (String.eqb sheetname) (wb_sheetnames (st_wb st))) eqn:E.
    - split; [done|]. apply existsb_exists in E as (x & Hx & ->%String.eqb_eq).
      done.
    - split; [by apply wf_workbook_create|]. cbn. apply in_or_app. right.
      by left. }
  destruct (list_index_found sheetname _ Hname1) as (si & Hsi & Hsi0).
  (* the formulas, once more *)
  destruct (Hwf1) as [[pt Hpt] _].
  destruct (cell_address_is_some si (1 + fi)) as [aF HaF]; [lia..|].
  destruct (insert_point_analysis_loop_spec pt si sheetname fi stride
              (cell_address 0 (1 + fi)) 0 target_headers aF)
    as (pt' & Hins & _); [lia..|done|].
  set (wb2 := {| wb_sheetnames := wb_sheetnames wb1;
                 wb_sheets := <[pt_title := pt']> (wb_sheets wb1) |}).
  assert (wf_workbook pt_title wb2) as Hwf2 by (by apply wf_workbook_insert).
  (* the header of the column *)
  destruct (Hwf2) as [_ Hnames2].
  destruct (Hnames2 sheetname) as [dst Hdst];
    [by apply list_elem_of_In|].
  destruct (cell_address_is_some 0 (fi + stride * h)) as [aH HaH]; [lia|nia|].
  set (title := VStr (excel_filename +:+ " (" +:+ hdr +:+ ")")).
  (* the rows *)
  destruct (transfer_rows_spec sheetname sheet col (fi + stride * h) Hcol
              ltac:(nia) (Py.range 1 (row_count + 1))
              {| wb_sheetnames := wb_sheetnames wb2;
                 wb_sheets := <[sheetname := <[aH := title]> dst]> (wb_sheets wb2) |}
              (<[aH := title]> dst))
    as (cells' & Hrows & Hframe & Hcopied).
  { intros r Hr%elem_of_range. lia. }
  { cbn. apply lookup_insert_eq. }
  eexists hdr, h, si, _, cells'. split_and!; [done|done|done| | | | | | |].
  - unfold scan_column. rewrite Hhead. cbn [mbind result_bind].
    rewrite Htarget. fold wb1. rewrite Hsi. cbn [mbind result_bind].
    rewrite invert_always_truthy.
    unfold call_insert_point_analysis_formula. cbn [st_wb].
    rewrite Hpt. unfold insert_point_analysis_formula. rewrite Hins.
    cbn [mbind result_bind st_wb st_calls st_max_row_count py_str].
    rewrite Hh. cbn [mbind result_bind]. fold wb2.
    rewrite (sheet_setitem_found _ _ _ _ _ _ _ Hdst HaH).
    cbn [mbind result_bind]. fold title. rewrite Hrows.
    cbn [mbind result_bind]. reflexivity.
  - reflexivity.
  - reflexivity.
  - cbn [st_wb wb_sheets wb_sheetnames]. rewrite insert_insert_eq.
    by apply wf_workbook_insert.
  - cbn [st_wb wb_sheets wb_sheetnames]. apply lookup_insert_eq.
  - exists aH. split; [done|]. rewrite Hframe; [apply lookup_insert_eq|].
    intros r Hr%elem_of_range E. rewrite <- HaH in E.
    apply cell_address_inj in E as [-> _]; lia || nia.
  - intros r Hr. apply Hcopied; [apply NoDup_seqZ|].
    apply elem_of_range. lia.
Qed.

(** The scan of a list of columns returns, and calls
    [insert_point_analysis_formula] once for every column of the list that
    has a target header. *)
Lemma for_each_scan_column_calls pt_title target_headers fi stride
    excel_filename sheetname sheet row_count :
  0 <= fi -> 0 <= stride ->
  forall cols st flag,
    (forall c, c ∈ cols -> 0 <= c) ->
    wf_workbook pt_title (st_wb st) ->
    exists st' flag',
      for_each (scan_column pt_title target_headers fi stride excel_filename
                  sheetname sheet row_count) cols (st, flag) = Ok (st', flag') /\
      wf_workbook pt_title (st_wb st') /\
      length (st_calls st')
      = (length (st_calls st)
         + length (List.filter (is_target_column target_headers sheet) cols))%nat.
Proof.
  intros Hfi Hst. induction cols as [|c cols IH]; intros st flag Hcols Hwf.
  { exists st, flag. split_and!; [done|done|cbn; lia]. }
  assert (0 <= c) as Hc by (apply Hcols; left).
  cbn [for_each List.filter].
  destruct (is_target_column target_headers sheet c) eqn:Htarget.
  - destruct (scan_column_target pt_title target_headers fi stride
                excel_filename sheetname sheet row_count st flag c)
      as (hdr & h & si & st1 & cells' & _ & _ & _ & -> & Hcalls & _ & Hwf1 & _);
      [done..|].
    cbn [mbind result_bind].
    destruct (IH st1 true) as (st' & flag' & -> & Hwf' & Hlen);
      [intros; apply Hcols; by right|done|].
    exists st', flag'. split_and!; [done|done|].
    rewrite Hlen, Hcalls. cbn [length]. lia.
  - rewrite scan_column_other by done. cbn [mbind result_bind].
    destruct (IH st flag) as (st' & flag' & -> & Hwf' & Hlen);
      [intros; apply Hcols; by right|done|].
    by exists st', flag'.
Qed.

Lemma scan_columns_calls pt_title target_headers fi stride excel_filename
    sheetname sheet row_count col_count st :
  0 <= fi -> 0 <= stride ->
  wf_workbook pt_title (st_wb st) ->
  exists st',
    scan_columns pt_title target_headers fi stride excel_filename sheetname
      sheet row_count col_count st = Ok st' /\
    wf_workbook pt_title (st_wb st') /\
    length (st_calls st')
    = (length (st_calls st)
       + length (List.filter (is_target_column target_headers sheet)
                   (Py.range 0 col_count)))%nat.
Proof.
  intros Hfi Hst Hwf. unfold scan_columns.
  destruct (for_each_scan_column_calls pt_title target_headers fi stride
              excel_filename sheetname sheet row_count Hfi Hst
              (Py.range 0 col_count) st false)
    as (st' & flag' & -> & Hwf' & Hlen);
    [intros c Hc%elem_of_range; lia|done|].
  by exists st'.
Qed.

End OneColumn.

(** ** Cells that hold an error marker *)

Section MarkerCells.
Context `{OsPath} `{PyFloat}.

Import ExcelFormulas Collater.

Lemma marker_in (marker : string) :
  In marker Constants.EXCEL_ERROR_VALUES ->
  py_in (VStr marker) Constants.EXCEL_ERROR_VALUES = true.
Proof.
  intros Hin. cbn [py_in]. apply existsb_exists. exists marker.
  split; [done|]. apply String.eqb_refl.
Qed.

(** C5, as the code has it.  For a cell whose raw value is one of the six
    error markers, [get_cell_value] returns the default value, whatever
    [is_number] is; the result is therefore the marker itself only when
    the default is that very marker.  When the collater copies such a cell
    (read as a number, with the default NA()), the text NA() is what it
    writes to the destination cell. *)
Theorem C5_marker_gives_default ws row col is_number dflt marker :
  In marker Constants.EXCEL_ERROR_VALUES ->
  cells_getitem (ws_cells ws) (cell_address row col) = Ok (VStr marker) ->
  get_cell_value ws row col is_number dflt = Ok dflt /\
  (dflt <> VStr marker ->
   get_cell_value ws row col is_number dflt <> Ok (VStr marker)) /\
  (forall wb dst_title dst_col cells,
     0 <= row -> 0 <= col -> 0 <= dst_col ->
     wb_sheets wb !! dst_title = Some cells ->
     exists a cells',
       cell_address row dst_col = Some a /\
       transfer_rows wb dst_title ws col dst_col [row]
       = Ok {| wb_sheetnames := wb_sheetnames wb;
               wb_sheets := <[dst_title := cells']> (wb_sheets wb) |} /\
       cells' !! a = Some (VStr "NA()")).
Proof.
  intros Hin E.
  assert (forall is_number dflt,
            coerce (VStr marker) is_number dflt = dflt) as Hcoerce.
  { intros b d. unfold coerce. by rewrite marker_in. }
  assert (get_cell_value ws row col is_number dflt = Ok dflt) as Hdflt.
  { by rewrite (get_cell_value_found _ _ _ _ _ _ E), Hcoerce. }
  split_and!.
  - exact Hdflt.
  - rewrite Hdflt. intros Hne [= ->]. by apply Hne.
  - intros wb dst_title dst_col cells Hrow Hcol Hdst Hcells.
    destruct (transfer_rows_spec dst_title ws col dst_col Hcol Hdst [row] wb
                cells) as (cells' & Hrun & _ & Hcopied);
      [by intros r ->%list_elem_of_singleton|done|].
    destruct (Hcopied (NoDup_singleton row) row) as (a & cell_data & Ha & Hget & _ & Hcell);
      [by apply list_elem_of_singleton|].
    exists a, cells'. split_and!; [done..|].
    rewrite Hcell. rewrite E in Hget. injection Hget as <-.
    by rewrite Hcoerce.
Qed.

End MarkerCells.

Section MarkerCellsExamples.
Local Existing Instance Sample.floats.
Local Existing Instance Sample.paths.

Import ExcelFormulas.

(** C5, as the specification states it, fails where the default is itself
    one of the markers, which is how the collater calls the reader: a cell
    holding the text NA() read with the default NA() comes back as NA(),
    the raw marker. *)
Lemma C5_counterexample :
  In "NA()" Constants.EXCEL_ERROR_VALUES /\
  cells_getitem (ws_cells (Sample.marker_sheet "NA()")) (cell_address 0 0)
    = Ok (VStr "NA()") /\
  get_cell_value (Sample.marker_sheet "NA()") 0 0 true Collater.ERROR_VALUE
    = Ok (VStr "NA()").
Proof. split_and!; [|reflexivity..]. cbn. tauto. Qed.

(** The division-by-zero marker read as a number with the default NA(). *)
Lemma C5_marker_gives_default_witness :
  get_cell_value (Sample.marker_sheet "#DIV/0!") 0 0 true (VStr "NA()")
    = Ok (VStr "NA()") /\
  get_cell_value (Sample.marker_sheet "#DIV/0!") 0 0 true (VStr "NA()")
    <> Ok (VStr "#DIV/0!").
Proof.
  destruct (C5_marker_gives_default (Sample.marker_sheet "#DIV/0!") 0 0 true
              (VStr "NA()") "#DIV/0!") as (Hdflt & Hraw & _).
  - cbn. tauto.
  - reflexivity.
  - split; [exact Hdflt|]. apply Hraw. discriminate.
Defined.

End MarkerCellsExamples.

(** ** The scan of the columns of a sheet, and a whole run *)

Section ColumnScan.
Context `{OsPath} `{PyFloat}.

Import ExcelFormulas Collater.

(** C3.  The scan of a sheet never starts.  [process_sheet] reads the
    column count as [sheet.max_colum]; a worksheet has [max_row] and
    [max_column] and no attribute of that name, so the read raises
    [AttributeError] for every sheet, before any header cell is looked at,
    and a run in which any source file has a sheet ends there. *)
Theorem C3_process_sheet_raises :
  (forall sheet, ws_getattr sheet "max_colum" = Raise AttributeError) /\
  (forall sheet, ws_getattr sheet "max_column" = Ok (ws_max_column sheet)) /\
  (forall pt_title target_headers file_index rel_space_between_targets
          excel_filename st sheetname sheet,
     Collater.process_sheet pt_title target_headers file_index
       rel_space_between_targets excel_filename st (sheetname, sheet)
     = Raise AttributeError) /\
  (forall files target_headers,
     (exists f, f ∈ files /\ f.2 <> []) ->
     Collater.collate_excel_files files target_headers = Raise AttributeError).
Proof.
  split_and!; [reflexivity..|]. apply collate_excel_files_raises.
Qed.

(** C2.  The test [if ~contains_a_target_column] does not depend on the
    flag: [~False] is -1 and [~True] is -2, both true in an [if].  So
    [insert_point_analysis_formula] is called for every matching column of
    the scan, not for the first one only: the scan of the columns of a sheet
    adds as many calls as the sheet has columns with a target header, and
    on a sheet with five such columns, scanned with its five columns, the
    call is made five times.  (With the column count read as the code reads
    it, [process_sheet] raises before the scan and the call is never
    made.) *)
Theorem C2_emission_repeats_for_every_match :
  (forall b, truthy (py_invert b) = true) /\
  (forall pt_title target_headers fi stride excel_filename sheetname sheet
          row_count col_count st,
     0 <= fi -> 0 <= stride -> wf_workbook pt_title (st_wb st) ->
     exists st',
       scan_columns pt_title target_headers fi stride excel_filename sheetname
         sheet row_count col_count st = Ok st' /\
       length (st_calls st')
       = (length (st_calls st)
          + length (List.filter (is_target_column target_headers sheet)
                      (Py.range 0 col_count)))%nat) /\
  (exists st,
     scan_columns "Point Analysis" ["Average"; "STD"] 0 3 "f0" "Run1"
       Sample.five_matches 1 5 Sample.start = Ok st /\
     st_calls st = [(2, "Run1", 0); (2, "Run1", 0); (2, "Run1", 0);
                    (2, "Run1", 0); (2, "Run1", 0)]) /\
  process_sheet "Point Analysis" ["Average"; "STD"] 0 3 "f0" Sample.start
    ("Run1", Sample.five_matches) = Raise AttributeError.
Proof.
  split_and!.
  - apply invert_always_truthy.
  - intros pt_title target_headers fi stride excel_filename sheetname sheet
      row_count col_count st Hfi Hst Hwf.
    destruct (scan_columns_calls pt_title target_headers fi stride
                excel_filename sheetname sheet row_count col_count st)
      as (st' & Hrun & _ & Hlen); [done..|].
    by exists st'.
  - eexists. split; vm_compute; reflexivity.
  - reflexivity.
Qed.

(** C7.  On the two files of the scenario, with the target headers
    Average and STD, the run raises [AttributeError] at the first sheet
    (the column count is read as [sheet.max_colum]), as does every run in
    which a source file has a sheet: no destination sheet is made and
    nothing is copied.  The copying itself is in order (see
    [scan_column_target]): when the scan of each sheet is given its two
    columns, the headers of file 0 land in columns 0 and 4 (cells A1 and
    E1), those of file 1 in columns 1 and 5 (B1 and F1), and row 1 of each
    column is copied (here as the sentinel, the source cells being
    empty). *)
Theorem C7_scenario_run_raises :
  collate_excel_files Sample.scenario ["Average"; "STD"]
    = Raise AttributeError /\
  (forall files target_headers,
     (exists f, f ∈ files /\ f.2 <> []) ->
     collate_excel_files files target_headers = Raise AttributeError) /\
  (exists st0 st1 run1_cells,
     scan_columns "Point Analysis" ["Average"; "STD"] 0 4 "f0" "Run1"
       Sample.run1 1 2 Sample.start = Ok st0 /\
     scan_columns "Point Analysis" ["Average"; "STD"] 1 4 "f1" "Run1"
       Sample.run1 1 2 st0 = Ok st1 /\
     wb_sheets (st_wb st1) !! "Run1" = Some run1_cells /\
     cell_address 0 (offset 0 0 2) = Some "A1" /\
     cell_address 0 (offset 1 0 2) = Some "B1" /\
     cell_address 0 (offset 0 1 2) = Some "E1" /\
     cell_address 0 (offset 1 1 2) = Some "F1" /\
     run1_cells !! "A1" = Some (VStr "f0 (Average)") /\
     run1_cells !! "B1" = Some (VStr "f1 (Average)") /\
     run1_cells !! "E1" = Some (VStr "f0 (STD)") /\
     run1_cells !! "F1" = Some (VStr "f1 (STD)") /\
     run1_cells !! "A2" = Some (VStr "NA()") /\
     run1_cells !! "F2" = Some (VStr "NA()")).
Proof.
  split_and!.
  - vm_compute. reflexivity.
  - apply collate_excel_files_raises.
  - eexists _, _, _. split_and!; vm_compute; reflexivity.
Qed.

End ColumnScan.

Section ColumnScanExamples.
Local Existing Instance Sample.floats.
Local Existing Instance Sample.paths.

Import ExcelFormulas Collater.

(** The scan of a sheet with data, given its two columns, for file 1 of
    two: the numbers are copied as floats, the marker and the text that is
    not a number as the sentinel, and the row after the last one, which the
    loop reads too, as the sentinel as well. *)
Example scan_with_data :
  exists st,
    scan_columns "Point Analysis" ["Average"; "STD"] 1 4 "f1" "Run1"
      Sample.with_data 3 2 Sample.start = Ok st /\
    wb_sheetnames (st_wb st) = ["Sheet"; "Point Analysis"; "Run1"] /\
    wb_sheets (st_wb st) !! "Run1"
    = Some (list_to_map
              [("B1", VStr "f1 (Average)"); ("B2", VFloat 3);
               ("B3", VFloat 12); ("B4", VStr "NA()");
               ("F1", VStr "f1 (STD)"); ("F2", VStr "NA()");
               ("F3", VStr "NA()"); ("F4", VStr "NA()")]).
Proof. eexists. split_and!; vm_compute; reflexivity. Qed.

End ColumnScanExamples.

(** * Further properties of the code *)

(** ** Sheet names *)

Section SheetNames.
Context `{OsPath} `{PyFloat}.

Import Collater.

Lemma substring_length_le (n : nat) (s : string) :
  (String.length (substring 0 n s) <= n)%nat.
Proof.
  revert s. induction n as [|n IH]; intros [|a s]; cbn; try lia.
  specialize (IH s). lia.
Qed.

Lemma string_of_list_ascii_length (l : list ascii) :
  String.length (string_of_list_ascii l) = length l.
Proof. induction l as [|a l IH]; cbn; [done|]. by rewrite IH. Qed.

Lemma list_ascii_of_string_length (s : string) :
  length (list_ascii_of_string s) = String.length s.
Proof. induction s as [|a s IH]; cbn; [done|]. by rewrite IH. Qed.

Lemma filter_length_le {A} (f : A -> bool) (l : list A) :
  (length (List.filter f l) <= length l)%nat.
Proof. induction l as [|x l IH]; cbn; [lia|]. destruct (f x); cbn; lia. Qed.

Lemma filter_all {A} (f : A -> bool) (l : list A) :
  forallb f l = true -> List.filter f l = l.
Proof.
  induction l as [|x l IH]; cbn; [done|].
  intros [-> Hl]%andb_true_iff. by rewrite IH.
Qed.

Lemma forallb_filter {A} (f : A -> bool) (l : list A) :
  forallb f (List.filter f l) = true.
Proof.
  induction l as [|x l IH]; cbn; [done|].
  destruct (f x) eqn:E; cbn; [by rewrite E|done].
Qed.

Lemma contains_of_list (c : ascii) (l : list ascii) :
  Py.contains c (string_of_list_ascii l) = existsb (fun a => Ascii.eqb a c) l.
Proof. induction l as [|a l IH]; cbn; [done|]. rewrite IH. by destruct (Ascii.eqb a c). Qed.

Lemma create_sheet_name_length (name : string) :
  (String.length (create_sheet_name name) <= 31)%nat.
Proof.
  unfold create_sheet_name. rewrite string_of_list_ascii_length.
  etrans; [apply filter_length_le|]. rewrite list_ascii_of_string_length.
  destruct (Nat.leb_spec (String.length name) 31); [done|].
  apply substring_length_le.
Qed.

Lemma create_sheet_name_legal (name : string) (c : ascii) :
  illegal_in_sheet_name c = true ->
  Py.contains c (create_sheet_name name) = false.
Proof.
  intros Hc. unfold create_sheet_name. rewrite contains_of_list.
  apply not_true_is_false. intros (a & Ha & E)%existsb_exists.
  apply Ascii.eqb_eq in E as ->.
  apply filter_In in Ha as [_ Ha]. unfold illegal_in_sheet_name in Hc.
  by rewrite Hc in Ha.
Qed.

Lemma create_sheet_name_valid (name : string) :
  (String.length name <= 31)%nat ->
  (forall c, illegal_in_sheet_name c = true -> Py.contains c name = false) ->
  create_sheet_name name = name.
Proof.
  intros Hlen Hlegal. unfold create_sheet_name.
  destruct (Nat.leb_spec (String.length name) 31); [|lia].
  rewrite filter_all; [apply string_of_list_ascii_of_string|].
  apply forallb_forall. intros c Hc.
  destruct (Py.contains c "[]:*?/\") eqn:E; [|done].
  specialize (Hlegal c E).
  rewrite <- (string_of_list_ascii_of_string name), contains_of_list in Hlegal.
  assert (existsb (fun a => Ascii.eqb a c) (list_ascii_of_string name) = true)
    as Hex; [|congruence].
  apply existsb_exists. exists c. split; [done|apply Ascii.eqb_refl].
Qed.

(** X1.  [create_sheet_name] returns a name of at most 31 characters with
    none of the characters [[]:*?/\] in it; a name that already is one is
    returned as it is, so that applying the function twice is the same
    as applying it once. *)
Theorem X1_create_sheet_name_valid (name : string) :
  (String.length (create_sheet_name name) <= 31)%nat /\
  (forall c, illegal_in_sheet_name c = true ->
             Py.contains c (create_sheet_name name) = false) /\
  ((String.length name <= 31)%nat ->
   (forall c, illegal_in_sheet_name c = true -> Py.contains c name = false) ->
   create_sheet_name name = name) /\
  create_sheet_name (create_sheet_name name) = create_sheet_name name.
Proof.
  split_and!.
  - apply create_sheet_name_length.
  - apply create_sheet_name_legal.
  - apply create_sheet_name_valid.
  - apply create_sheet_name_valid;
      [apply create_sheet_name_length|apply create_sheet_name_legal].
Qed.

End SheetNames.

(** ** Guarded formulas *)

Section GuardedFormulas.
Context `{OsPath} `{PyFloat}.

Import ExcelFormulas Formulas.

Lemma lstrip_idem (c : ascii) (s : string) :
  Py.lstrip c (Py.lstrip c s) = Py.lstrip c s.
Proof.
  induction s as [|a s IH]; [done|]. cbn.
  destruct (Ascii.eqb a c) eqn:E; [done|]. cbn. by rewrite E.
Qed.

Lemma lstrip_cons_same (c : ascii) (s : string) :
  Py.lstrip c (String c s) = Py.lstrip c s.
Proof. cbn. by rewrite Ascii.eqb_refl. Qed.

Lemma error_guard_formula_lstrip formula dflt :
  error_guard_formula (Py.lstrip "=" formula) dflt
  = error_guard_formula formula dflt.
Proof. unfold error_guard_formula. by rewrite lstrip_idem. Qed.

(** X2.  [error_guard_formula] drops every leading equals sign of the
    formula it is given, however many there are, and puts a single one in
    front of [IFERROR(]; the default [None] stands for [NA()].  Guarding a
    guarded formula nests the guards. *)
Theorem X2_error_guard_formula_leading_equals formula dflt dflt' :
  error_guard_formula ("=" +:+ formula) dflt = error_guard_formula formula dflt /\
  error_guard_formula (Py.lstrip "=" formula) dflt
    = error_guard_formula formula dflt /\
  error_guard_formula formula None = error_guard_formula formula (Some "NA()") /\
  error_guard_formula formula dflt
    = "=IFERROR(" +:+ Py.lstrip "=" formula +:+ ", "
        +:+ default "NA()" dflt +:+ ")" /\
  Py.lstrip "=" (Py.lstrip "=" formula) = Py.lstrip "=" formula /\
  error_guard_formula (error_guard_formula formula dflt) dflt'
    = "=IFERROR(IFERROR(" +:+ Py.lstrip "=" formula +:+ ", "
        +:+ default "NA()" dflt +:+ "), " +:+ default "NA()" dflt' +:+ ")".
Proof.
  assert (forall f d, error_guard_formula f d
            = "=IFERROR(" +:+ Py.lstrip "=" f +:+ ", "
                +:+ default "NA()" d +:+ ")") as Hshape.
  { intros f [d|]; reflexivity. }
  split_and!.
  - unfold error_guard_formula. by rewrite str_app_cons, str_app_nil_l, lstrip_cons_same.
  - apply error_guard_formula_lstrip.
  - reflexivity.
  - apply Hshape.
  - apply lstrip_idem.
  - rewrite (Hshape (error_guard_formula formula dflt) dflt').
    rewrite (Hshape formula dflt).
    set (body := Py.lstrip "=" formula +:+ ", " +:+ default "NA()" dflt +:+ ")").
    change (Py.lstrip "=" ("=IFERROR(" +:+ body)) with ("IFERROR(" +:+ body).
    subst body. rewrite !str_app_assoc. reflexivity.
Qed.

Lemma count_char_app (c : ascii) (s1 s2 : string) :
  count_char c (s1 +:+ s2) = count_char c s1 + count_char c s2.
Proof.
  induction s1 as [|a s1 IH]; [by rewrite str_app_nil_l|].
  rewrite str_app_cons. cbn. rewrite IH. lia.
Qed.

Lemma count_char_lstrip (c d : ascii) (s : string) :
  Ascii.eqb d c = false -> count_char c (Py.lstrip d s) = count_char c s.
Proof.
  intros Hdc. induction s as [|a s IH]; [done|]. cbn.
  destruct (Ascii.eqb_spec a d) as [->|]; [|done]. rewrite Hdc, IH. lia.
Qed.

Lemma count_char_none (p : ascii -> bool) (c : ascii) (s : string) :
  p c = false -> Py.all_chars p s = true -> count_char c s = 0.
Proof.
  intros Hc. induction s as [|a s IH]; [done|]. cbn.
  intros [Ha Hs]%andb_true_iff.
  destruct (Ascii.eqb_spec a c) as [->|]; [congruence|]. by rewrite IH.
Qed.

(** The address of a cell, formatted, has no parenthesis in it. *)
Lemma count_char_address (c : ascii) (row col : Z) :
  Xlsx.is_upper c = false -> Xlsx.is_digit c = false ->
  count_char c "None" = 0 ->
  count_char c (Py.fmt (cell_address row col)) = 0.
Proof.
  intros Hu Hd Hnone.
  destruct (decide (0 <= row /\ 0 <= col)) as [[Hr Hc]|Hneg].
  - destruct (cell_address_parts row col Hr Hc) as (l & d & -> & P & _).
    destruct P as [Pu Pd _ _ _ _]. cbn [Py.fmt]. rewrite count_char_app.
    by rewrite (count_char_none _ _ _ Hu Pu), (count_char_none _ _ _ Hd Pd).
  - rewrite cell_address_negative by lia. exact Hnone.
Qed.

Lemma paren_balance_app (s1 s2 : string) :
  paren_balance (s1 +:+ s2) = paren_balance s1 + paren_balance s2.
Proof. unfold paren_balance. rewrite !count_char_app. lia. Qed.

Lemma paren_balance_address (row col : Z) :
  paren_balance (Py.fmt (cell_address row col)) = 0.
Proof.
  unfold paren_balance. by rewrite !count_char_address.
Qed.

(** Guarding leaves the balance of the parentheses as it is. *)
Lemma paren_balance_guard (formula : string) :
  paren_balance (error_guard_formula formula None) = paren_balance formula.
Proof.
  unfold error_guard_formula. rewrite !paren_balance_app.
  unfold paren_balance at 2. rewrite !count_char_lstrip by reflexivity.
  fold (paren_balance formula).
  change (paren_balance "=IFERROR(") with 1.
  change (paren_balance ", NA())") with (-1). lia.
Qed.

(** Splits the balance of a concatenation into the balances of its
    pieces, and settles the pieces. *)
Ltac balance :=
  repeat match goal with
         | |- context [paren_balance (?a +:+ ?b)] =>
             rewrite (paren_balance_app a b)
         end;
  rewrite ?paren_balance_address; reflexivity.

(** [lstrip] of a text that begins with a literal. *)
Ltac lstrip_literal :=
  match goal with
  | |- context [Py.lstrip "=" (String "=" ?lit +:+ ?rest)] =>
      change (Py.lstrip "=" (String "=" lit +:+ rest)) with (lit +:+ rest)
  end.

(** X3.  The formula of [get_average_equation_for_row_range] is guarded
    and its parentheses are balanced, for every row, every pair of columns
    and both values of [positive_only]. *)
Theorem X3_average_equation_balanced row_no start_col_no end_col_no
    positive_only :
  paren_balance (get_average_equation_for_row_range row_no start_col_no
                   end_col_no positive_only) = 0 /\
  exists body,
    get_average_equation_for_row_range row_no start_col_no end_col_no
      positive_only = "=IFERROR(AVERAGEIFS(" +:+ body +:+ ", NA())".
Proof.
  unfold get_average_equation_for_row_range. split.
  - rewrite paren_balance_guard. destruct positive_only; balance.
  - unfold error_guard_formula. destruct positive_only.
    + eexists. lstrip_literal. rewrite str_app_assoc. reflexivity.
    + eexists. lstrip_literal. rewrite str_app_assoc. reflexivity.
Qed.

(** X4.  The formula of [get_std_equation_for_row_range] always has one
    opening parenthesis more than closing ones: the call of [STDEV] is
    opened and never closed, for every row, every pair of columns and both
    values of [positive_only]. *)
Theorem X4_std_equation_unbalanced row_no start_col_no end_col_no
    positive_only :
  paren_balance (get_std_equation_for_row_range row_no start_col_no
                   end_col_no positive_only) = 1 /\
  exists body,
    get_std_equation_for_row_range row_no start_col_no end_col_no
      positive_only = "=IFERROR(STDEV(" +:+ body +:+ ", NA())" /\
    paren_balance body = 0.
Proof.
  unfold get_std_equation_for_row_range. split.
  - rewrite paren_balance_guard. destruct positive_only; balance.
  - unfold error_guard_formula. destruct positive_only.
    + eexists. split.
      * lstrip_literal. rewrite str_app_assoc. reflexivity.
      * balance.
    + eexists. split.
      * lstrip_literal. rewrite str_app_assoc. reflexivity.
      * balance.
Qed.

End GuardedFormulas.

(** ** Empty cells, file names and folder listings *)

Section EmptyCells.
Context `{OsPath} `{PyFloat}.

Import ExcelFormulas.

(** X5.  A cell that reads as [None] (an empty or absent cell) gives the
    default value when a number is asked for, since [float(None)] fails;
    when text is asked for it gives the text None, not the default. *)
Theorem X5_empty_cell_number_and_text ws row col dflt :
  cells_getitem (ws_cells ws) (cell_address row col) = Ok VNone ->
  get_cell_value ws row col true dflt = Ok dflt /\
  get_cell_value ws row col false dflt = Ok (VStr "None").
Proof.
  intros Hcell. by rewrite !(get_cell_value_found _ _ _ _ _ _ Hcell).
Qed.

End EmptyCells.

Section FileNameShape.
Context `{OsPath}.

Lemma split_head_no_sep (sep : ascii) (s h : string) (t : list string) :
  Py.split sep s = h :: t -> Py.contains sep h = false.
Proof.
  revert h t. induction s as [|a s IH]; intros h t; cbn.
  - by intros [= <- <-].
  - destruct (Ascii.eqb a sep) eqn:E; [by intros [= <- <-]|].
    destruct (Py.split sep s) as [|h' t'] eqn:Hs; intros [= <- <-]; cbn;
      rewrite E; [done|]. by eapply IH.
Qed.

(** X6.  [get_filename] returns for every path, and the name it returns
    never has a dot in it. *)
Theorem X6_get_filename_has_no_dot (file_path : string) :
  exists name,
    FileHandler.get_filename file_path = Ok name /\
    Py.contains "." name = false.
Proof.
  unfold FileHandler.get_filename, Py.index.
  match goal with |- context [Py.split ?c ?p] =>
    pose proof (split_not_nil c p) as Hne;
    pose proof (split_head_no_sep c p) as Hhead;
    destruct (Py.split c p) as [|h t] end; [done|].
  exists h. split; [done|]. by eapply Hhead.
Qed.

End FileNameShape.

Section FolderListing.
Context `{OsJoin}.

Import Folder.

Lemma endswith_unfold (s suffix : string) :
  endswith s suffix
  = if String.eqb s suffix then true
    else match s with
         | EmptyString => false
         | String _ s' => endswith s' suffix
         end.
Proof. by destruct s. Qed.

Lemma endswith_spec (s suffix : string) :
  endswith s suffix = true <-> exists pre, s = pre +:+ suffix.
Proof.
  split.
  - induction s as [|a s IH]; rewrite endswith_unfold.
    + destruct (String.eqb_spec "" suffix) as [<-|]; [by exists ""|done].
    + destruct (String.eqb_spec (String a s) suffix) as [<-|Hne].
      * by exists "".
      * intros [pre ->]%IH. by exists (String a pre).
  - intros [pre ->]. induction pre as [|a pre IH].
    + rewrite str_app_nil_l, endswith_unfold. by rewrite String.eqb_refl.
    + rewrite str_app_cons, endswith_unfold.
      by destruct (String.eqb (String a (pre +:+ suffix)) suffix).
Qed.

Lemma endswith_empty (s : string) : endswith s "" = true.
Proof. apply endswith_spec. exists s. by rewrite str_app_nil_r. Qed.

(** X7.  [get_files_from_folder] returns, joined to the folder path and in
    the order of the listing, exactly the entries whose name ends with the
    extension asked for; with the default extension (the empty text) it
    returns every entry. *)
Theorem X7_get_files_from_folder (listdir : list string)
    (folder_path extension : string) :
  (forall x,
     In x (get_files_from_folder listdir folder_path extension) <->
     exists file, In file listdir /\
                  (exists stem, file = stem +:+ extension) /\
                  x = os_path_join folder_path file) /\
  get_files_from_folder listdir folder_path ""
    = map (os_path_join folder_path) listdir /\
  (length (get_files_from_folder listdir folder_path extension)
   <= length listdir)%nat /\
  (forall listdir',
     get_files_from_folder (listdir ++ listdir') folder_path extension
     = get_files_from_folder listdir folder_path extension
       ++ get_files_from_folder listdir' folder_path extension).
Proof.
  unfold get_files_from_folder. split_and!.
  - intros x. rewrite in_map_iff. split.
    + intros (file & <- & [Hin Hend]%filter_In).
      exists file. by rewrite <- endswith_spec.
    + intros (file & Hin & Hend%endswith_spec & ->).
      exists file. split; [done|]. by apply filter_In.
  - f_equal. apply filter_all, forallb_forall. intros; apply endswith_empty.
  - rewrite length_map. apply filter_length_le.
  - intros listdir'. by rewrite List.filter_app, map_app.
Qed.

End FolderListing.

Section EmptyCellsExamples.
Local Existing Instance Sample.floats.
Local Existing Instance Sample.paths.

Import ExcelFormulas.

(** Cell A2 of the sheet Run1 of the scenario is empty. *)
Lemma X5_empty_cell_number_and_text_witness :
  get_cell_value Sample.run1 1 0 true (VStr "NA()") = Ok (VStr "NA()") /\
  get_cell_value Sample.run1 1 0 false (VStr "NA()") = Ok (VStr "None").
Proof.
  apply (X5_empty_cell_number_and_text Sample.run1 1 0 (VStr "NA()")).
  reflexivity.
Defined.

End EmptyCellsExamples.

(** ** Addresses with fixed rows and columns, and with a file *)

Section QualifiedAddresses.
Context `{OsPath}.

Import ExcelFormulas.

(** The mark of a fixed row or column. *)
Lemma xl_rowcol_to_cell_abs (row col : Z) (row_abs col_abs : bool) :
  0 <= row -> 0 <= col ->
  Xlsx.xl_rowcol_to_cell row col row_abs col_abs
  = Some ((if col_abs then "$" else "")
            +:+ Xlsx.col_letters (Xlsx.col_fuel (col + 1)) (col + 1) ""
            +:+ (if row_abs then "$" else "")
            +:+ Py.str_of_int (row + 1)).
Proof.
  intros Hr Hc. unfold Xlsx.xl_rowcol_to_cell, Xlsx.xl_col_to_name.
  destruct (Z.ltb_spec row 0); [lia|].
  destruct (Z.ltb_spec col 0); [lia|].
  cbn [mbind option_bind]. by rewrite str_app_assoc.
Qed.

Lemma xl_cell_to_rowcol_nonempty (a : ascii) (s : string) :
  Xlsx.xl_cell_to_rowcol (String a s)
  = match Xlsx.re_range_parts_match (String a s) with
    | None => Raise AttributeError
    | Some (col_str, row_str) =>
        row ← Py.int_of_digits row_str;
        Ok (row - 1, Xlsx.col_of_letters 0 col_str - 1)
    end.
Proof. reflexivity. Qed.

Lemma re_range_parts_match_abs col_str row_str row col
    (row_abs col_abs : bool) :
  address_parts col_str row_str row col ->
  (String.length col_str <= 3)%nat ->
  Xlsx.re_range_parts_match
    ((if col_abs then "$" else "") +:+ col_str
       +:+ (if row_abs then "$" else "") +:+ row_str)
  = Some (col_str, row_str).
Proof.
  intros [Hu Hd Hcn Hrn _ _] Hlen. unfold Xlsx.re_range_parts_match.
  destruct col_str as [|a col_str]; [done|].
  destruct row_str as [|b row_str]; [done|].
  assert (Xlsx.is_upper a = true) as Ha
    by (cbn in Hu; by apply andb_true_iff in Hu as [? _]).
  assert (Xlsx.is_digit b = true) as Hb
    by (cbn in Hd; by apply andb_true_iff in Hd as [? _]).
  assert (Xlsx.skip_dollar
            ((if col_abs then "$" else "") +:+ String a col_str
               +:+ (if row_abs then "$" else "") +:+ String b row_str)
          = String a col_str
              +:+ (if row_abs then "$" else "") +:+ String b row_str) as ->.
  { destruct col_abs; [reflexivity|].
    rewrite str_app_nil_l, str_app_cons. cbn [Xlsx.skip_dollar].
    by rewrite upper_not_dollar. }
  rewrite span_upto_app; [|done| |done].
  - assert (Xlsx.skip_dollar
              ((if row_abs then "$" else "") +:+ String b row_str)
            = String b row_str) as ->.
    { destruct row_abs; [reflexivity|].
      rewrite str_app_nil_l. cbn [Xlsx.skip_dollar].
      by rewrite digit_not_dollar. }
    rewrite <- (str_app_nil_r (String b row_str)) at 1.
    by rewrite span_app.
  - destruct row_abs; [reflexivity|].
    rewrite str_app_nil_l. cbn. by rewrite digit_not_upper.
Qed.

Lemma xl_cell_to_rowcol_abs col_str row_str row col (row_abs col_abs : bool) :
  address_parts col_str row_str row col ->
  (String.length col_str <= 3)%nat ->
  Xlsx.xl_cell_to_rowcol
    ((if col_abs then "$" else "") +:+ col_str
       +:+ (if row_abs then "$" else "") +:+ row_str)
  = Ok (row, col).
Proof.
  intros P Hlen.
  pose proof (re_range_parts_match_abs _ _ _ _ row_abs col_abs P Hlen) as Hm.
  destruct P as [_ _ Hcn _ Hc Hr].
  destruct ((if col_abs then "$" else "") +:+ col_str
              +:+ (if row_abs then "$" else "") +:+ row_str)
    as [|a s] eqn:E.
  { destruct col_abs, col_str; cbn in E; done. }
  rewrite xl_cell_to_rowcol_nonempty, Hm, Hr. cbn [mbind result_bind].
  rewrite Hc. do 2 f_equal; lia.
Qed.

Lemma address_abs_no_bang col_str row_str row col (row_abs col_abs : bool) :
  address_parts col_str row_str row col ->
  Py.contains "!"
    ((if col_abs then "$" else "") +:+ col_str
       +:+ (if row_abs then "$" else "") +:+ row_str) = false.
Proof.
  intros [Hu Hd _ _ _ _]. rewrite !contains_app.
  rewrite (all_chars_contains Xlsx.is_upper "!" col_str eq_refl Hu),
          (all_chars_contains Xlsx.is_digit "!" row_str eq_refl Hd).
  by destruct col_abs, row_abs.
Qed.

Lemma parse_plain (cell : string) (row col : Z) :
  Py.contains "!" cell = false ->
  Xlsx.xl_cell_to_rowcol cell = Ok (row, col) ->
  convert_from_excel_cell_address cell = Ok ("", row, col).
Proof.
  intros Hnb Hparse. unfold convert_from_excel_cell_address.
  rewrite Hnb. cbn [mbind result_bind]. by rewrite Hparse.
Qed.

Lemma parse_quoted (name cell : string) (row col : Z) :
  Py.contains "!" name = false ->
  Py.lstrip "'" name = name -> Py.rstrip "'" name = name ->
  Py.contains "!" cell = false ->
  Xlsx.xl_cell_to_rowcol cell = Ok (row, col) ->
  convert_from_excel_cell_address ("'" +:+ name +:+ "'!" +:+ cell)
  = Ok (name, row, col).
Proof.
  intros Hbang Hl Hr Hnb Hparse.
  assert ("'" +:+ name +:+ "'!" +:+ cell
          = String "'" (name +:+ String "'" "") +:+ String "!" cell) as ->
    by (by rewrite !str_app_cons, !str_app_nil_l, str_app_assoc,
                   str_app_cons, str_app_nil_l).
  unfold convert_from_excel_cell_address.
  rewrite contains_app. cbn [Py.contains]. rewrite Ascii.eqb_refl, orb_true_r.
  rewrite split_at_sep, (split_no_sep _ _ Hnb).
  - cbn -[Py.strip Xlsx.xl_cell_to_rowcol].
    rewrite strip_quoted by done. by rewrite Hparse.
  - cbn [Py.contains]. replace (Ascii.eqb "'" "!") with false by reflexivity.
    by rewrite contains_app, Hbang.
Qed.

(** X8.  The address round trip holds for fixed rows and fixed columns
    too: whatever [fixed_row] and [fixed_column] are, for a row [>= 0], a
    column from 0 to 18277 and a sheet name without exclamation mark and
    without an apostrophe at either end (the empty name included), parsing
    the generated address gives back the sheet name, the row and the
    column; the dollar signs are dropped by the parser. *)
Theorem X8_address_round_trip_fixed (row col : Z) (sheet_name : string)
    (fixed_row fixed_column : bool) :
  0 <= row -> 0 <= col < 18278 ->
  Py.contains "!" sheet_name = false ->
  Py.lstrip "'" sheet_name = sheet_name ->
  Py.rstrip "'" sheet_name = sheet_name ->
  exists a,
    convert_to_excel_address row col "" sheet_name fixed_row fixed_column
      = Some a /\
    convert_from_excel_cell_address a = Ok (sheet_name, row, col).
Proof.
  intros Hr Hc Hbang Hl Hrs.
  destruct (cell_address_parts row col) as (l & d & E & P & Hlen); [lia..|].
  specialize (Hlen ltac:(lia)).
  rewrite cell_address_some in E by lia. injection E as E.
  pose proof (xl_rowcol_to_cell_abs row col fixed_row fixed_column
                ltac:(lia) ltac:(lia)) as Hcell.
  pose proof (col_letters_upper (Xlsx.col_fuel (col + 1)) (col + 1)) as Hu.
  pose proof (str_of_int_digits (row + 1) ltac:(lia)) as Hd.
  assert (l = Xlsx.col_letters (Xlsx.col_fuel (col + 1)) (col + 1) ""
          /\ d = Py.str_of_int (row + 1)) as [-> ->].
  { destruct P as [Pu Pd _ _ _ _].
    assert (Xlsx.span Xlsx.is_upper (l +:+ d) = (l, d)) as S1
      by (apply span_app; auto using stops_upper_digits).
    rewrite <- E, span_app in S1 by auto using stops_upper_digits.
    by injection S1 as <- <-. }
  pose proof (xl_cell_to_rowcol_abs _ _ _ _ fixed_row fixed_column P Hlen)
    as Hparse.
  pose proof (address_abs_no_bang _ _ _ _ fixed_row fixed_column P) as Hnb.
  unfold convert_to_excel_address. cbn [String.eqb negb]. rewrite Hcell.
  destruct sheet_name as [|a s].
  - cbn [String.eqb negb]. eexists. split; [reflexivity|].
    by apply parse_plain.
  - cbn [String.eqb negb Py.fmt]. eexists. split; [reflexivity|].
    by apply parse_quoted.
Qed.

(** X9.  With a file path, what the parser returns as the sheet name is
    the folder, the file name in brackets and the sheet name together, and
    so never the sheet name alone: the address of a cell in another
    workbook does not round-trip. *)
Theorem X9_file_qualified_address (row col : Z) (file_path sheet_name : string)
    (fixed_row fixed_column : bool) :
  let qualified :=
    (os_path_split file_path).1 +:+ "\[" +:+ (os_path_split file_path).2
      +:+ "]" +:+ sheet_name in
  file_path <> "" ->
  0 <= row -> 0 <= col < 18278 ->
  Py.contains "!" qualified = false ->
  Py.lstrip "'" qualified = qualified ->
  Py.rstrip "'" qualified = qualified ->
  exists a,
    convert_to_excel_address row col file_path sheet_name fixed_row
      fixed_column = Some a /\
    convert_from_excel_cell_address a = Ok (qualified, row, col) /\
    qualified <> sheet_name.
Proof.
  intros qualified Hfile Hr Hc Hbang Hl Hrs.
  destruct (cell_address_parts row col) as (l & d & E & P & Hlen); [lia..|].
  specialize (Hlen ltac:(lia)).
  rewrite cell_address_some in E by lia. injection E as E.
  pose proof (xl_rowcol_to_cell_abs row col fixed_row fixed_column
                ltac:(lia) ltac:(lia)) as Hcell.
  assert (l = Xlsx.col_letters (Xlsx.col_fuel (col + 1)) (col + 1) ""
          /\ d = Py.str_of_int (row + 1)) as [-> ->].
  { destruct P as [Pu Pd _ _ _ _].
    pose proof (col_letters_upper (Xlsx.col_fuel (col + 1)) (col + 1)) as Hu.
    pose proof (str_of_int_digits (row + 1) ltac:(lia)) as Hd.
    assert (Xlsx.span Xlsx.is_upper (l +:+ d) = (l, d)) as S1
      by (apply span_app; auto using stops_upper_digits).
    rewrite <- E, span_app in S1 by auto using stops_upper_digits.
    by injection S1 as <- <-. }
  pose proof (xl_cell_to_rowcol_abs _ _ _ _ fixed_row fixed_column P Hlen)
    as Hparse.
  pose proof (address_abs_no_bang _ _ _ _ fixed_row fixed_column P) as Hnb.
  unfold convert_to_excel_address. rewrite Hcell.
  assert (negb (String.eqb file_path "") = true) as ->
    by (by apply negb_true_iff, String.eqb_neq).
  cbn [Py.fmt]. eexists. split_and!; [reflexivity| |].
  - rewrite <- (parse_quoted qualified _ row col Hbang Hl Hrs Hnb Hparse).
    f_equal. subst qualified. by rewrite !str_app_assoc.
  - intros Heq. apply (f_equal String.length) in Heq.
    subst qualified. rewrite !str_length_app in Heq. cbn in Heq. lia.
Qed.

End QualifiedAddresses.

Section QualifiedAddressesExamples.
Local Existing Instance Sample.paths.

Import ExcelFormulas.

(** A fixed cell of the sheet Run1: 'Run1'!$AB$10. *)
Lemma X8_address_round_trip_fixed_witness :
  exists a,
    convert_to_excel_address 9 27 "" "Run1" true true = Some a /\
    convert_from_excel_cell_address a = Ok ("Run1", 9, 27).
Proof.
  apply (X8_address_round_trip_fixed 9 27 "Run1" true true);
    [lia|lia|reflexivity..].
Defined.

(** The cell A1 of the sheet Run1 of the workbook data/f0.xlsx. *)
Lemma X9_file_qualified_address_witness :
  exists a,
    convert_to_excel_address 0 0 "data/f0.xlsx" "Run1" false false = Some a /\
    convert_from_excel_cell_address a = Ok ("data\[f0.xlsx]Run1", 0, 0) /\
    "data\[f0.xlsx]Run1" <> "Run1".
Proof.
  destruct (X9_file_qualified_address 0 0 "data/f0.xlsx" "Run1" false false)
    as (a & Ha & Hparse & Hne); [discriminate|lia|lia|reflexivity..|].
  exists a. split_and!; [exact Ha|exact Hparse|exact Hne].
Defined.

End QualifiedAddressesExamples.

(** ** Writes that repeat *)

Section RepeatedWrites.
Context `{OsPath} `{PyFloat}.

Import ExcelFormulas Collater.

Lemma apply_writes_snoc (writes : list (string * value)) k v cells :
  apply_writes (writes ++ [(k, v)]) cells
  = <[k := v]> (apply_writes writes cells).
Proof. unfold apply_writes. by rewrite foldl_app. Qed.

Lemma apply_writes_cons (writes : list (string * value)) k v cells :
  apply_writes ((k, v) :: writes) cells
  = apply_writes writes (<[k := v]> cells).
Proof. reflexivity. Qed.

(** A key that is not written keeps its value; a key that is written gets
    a value that does not depend on the sheet the writes start from. *)
Lemma apply_writes_other (writes : list (string * value)) cells k :
  k ∉ writes.*1 -> apply_writes writes cells !! k = cells !! k.
Proof.
  induction writes as [|[k' v] writes IH] using rev_ind; [done|].
  rewrite fmap_app, not_elem_of_app. cbn. intros [Hk Hk'].
  rewrite apply_writes_snoc, lookup_insert_ne; [auto|].
  intros ->. apply Hk'. by left.
Qed.

Lemma apply_writes_written (writes : list (string * value)) cells cells' k :
  k ∈ writes.*1 ->
  apply_writes writes cells !! k = apply_writes writes cells' !! k.
Proof.
  induction writes as [|[k' v] writes IH] using rev_ind.
  { by intros ?%elem_of_nil. }
  rewrite fmap_app, elem_of_app, !apply_writes_snoc. cbn. intros Hk.
  destruct (decide (k' = k)) as [->|Hne].
  - by rewrite !lookup_insert_eq.
  - rewrite !lookup_insert_ne by done. apply IH.
    destruct Hk as [Hk|Hk%list_elem_of_singleton]; [done|congruence].
Qed.

(** Writes to the same cells, in the same order, cover the earlier ones. *)
Lemma apply_writes_absorb (writes1 writes2 : list (string * value)) cells :
  writes1.*1 = writes2.*1 ->
  apply_writes writes2 (apply_writes writes1 cells)
  = apply_writes writes2 cells.
Proof.
  intros Hkeys. apply map_eq. intros k.
  destruct (decide (k ∈ writes2.*1)) as [Hk|Hk].
  - by apply apply_writes_written.
  - rewrite !apply_writes_other; [done|done|by rewrite Hkeys|done].
Qed.

(** The loop of [insert_point_analysis_formula] is a list of writes that
    does not depend on the sheet it is run on. *)
Lemma insert_point_analysis_loop_writes si title fi stride pa hs :
  0 <= si -> 0 <= 1 + fi -> 0 <= stride ->
  forall i0, 0 <= i0 ->
    exists writes, forall pt,
      insert_point_analysis_loop pt si title fi stride pa i0 hs
      = Ok (apply_writes writes pt).
Proof.
  intros Hsi Hfi Hst. induction hs as [|h rest IH]; intros i0 Hi0.
  { by exists []. }
  destruct (cell_address_is_some si (stride * i0)) as [aL HaL]; [lia|nia|].
  destruct (cell_address_is_some si (1 + fi)) as [aF HaF]; [lia..|].
  destruct (IH (i0 + 1)) as [writes Hwrites]; [lia|].
  exists ((aL, VStr (point_label title h))
            :: (aF, VStr (point_formula pa fi stride i0 title)) :: writes).
  intros pt.
  rewrite (insert_point_analysis_loop_cons _ _ _ _ _ _ _ _ _ _ _ HaL HaF).
  by rewrite Hwrites.
Qed.

(** A run of the loop that returns is a list of writes, the same for
    every sheet it is run on. *)
Lemma insert_point_analysis_loop_returned si title fi stride pa hs :
  forall i0 pt pt',
    insert_point_analysis_loop pt si title fi stride pa i0 hs = Ok pt' ->
    exists writes, forall pt2,
      insert_point_analysis_loop pt2 si title fi stride pa i0 hs
      = Ok (apply_writes writes pt2).
Proof.
  induction hs as [|h rest IH]; intros i0 pt pt' Hrun.
  { by exists []. }
  destruct (cell_address si (stride * i0)) as [aL|] eqn:HaL;
    [|cbn [insert_point_analysis_loop] in Hrun; by rewrite HaL in Hrun].
  destruct (cell_address si (1 + fi)) as [aF|] eqn:HaF;
    [|cbn [insert_point_analysis_loop] in Hrun; by rewrite HaL, HaF in Hrun].
  rewrite (insert_point_analysis_loop_cons _ _ _ _ _ _ _ _ _ _ _ HaL HaF)
    in Hrun.
  apply IH in Hrun as [writes Hwrites].
  exists ((aL, VStr (point_label title h))
            :: (aF, VStr (point_formula pa fi stride i0 title)) :: writes).
  intros pt2.
  rewrite (insert_point_analysis_loop_cons _ _ _ _ _ _ _ _ _ _ _ HaL HaF).
  by rewrite Hwrites.
Qed.

(** X10.  Writing the point-analysis formulas of a sheet a second time
    changes nothing: whenever [insert_point_analysis_formula] returns, the
    same call on the sheet it has written returns too and leaves that
    sheet as it is. *)
Theorem X10_insert_point_analysis_formula_idempotent pt pt' si title fi
    stride headers :
  insert_point_analysis_formula pt si title fi stride headers = Ok pt' ->
  insert_point_analysis_formula pt' si title fi stride headers = Ok pt'.
Proof.
  unfold insert_point_analysis_formula. intros Hrun.
  destruct (insert_point_analysis_loop_returned _ _ _ _ _ _ _ _ _ Hrun)
    as [writes Hwrites].
  rewrite Hwrites in Hrun. injection Hrun as <-.
  by rewrite Hwrites, apply_writes_absorb.
Qed.

(** The labelling loop is a list of writes to cells that do not depend on
    the file name. *)
Lemma label_file_writes stride hs :
  0 <= stride ->
  forall idx, 0 <= idx ->
    exists keys, forall excel_filename,
      exists writes,
        writes.*1 = keys /\
        forall wb pt_title cells,
          wb_sheets wb !! pt_title = Some cells ->
          label_file wb pt_title stride excel_filename idx hs
          = Ok {| wb_sheetnames := wb_sheetnames wb;
                  wb_sheets := <[pt_title := apply_writes writes cells]>
                                 (wb_sheets wb) |}.
Proof.
  intros Hst. induction hs as [|h rest IH]; intros idx Hidx.
  { exists []. intros name. exists []. split; [done|].
    intros [names sheets] pt_title cells Hcells. cbn in *.
    by rewrite insert_id. }
  destruct (cell_address_is_some 1 (1 + stride * idx)) as [a Ha]; [lia|nia|].
  destruct (IH (idx + 1)) as [keys Hkeys]; [lia|].
  exists (a :: keys). intros name. destruct (Hkeys name) as (writes & <- & Hrun).
  exists ((a, VStr (name +:+ " (" +:+ h +:+ ")")) :: writes).
  split; [done|]. intros wb pt_title cells Hcells.
  cbn [label_file]. rewrite (sheet_setitem_found _ _ _ _ _ _ _ Hcells Ha).
  cbn [mbind result_bind].
  rewrite (Hrun _ pt_title (<[a := VStr (name +:+ " (" +:+ h +:+ ")")]> cells))
    by apply lookup_insert_eq.
  cbn [wb_sheetnames wb_sheets]. by rewrite insert_insert_eq.
Qed.

(** X11.  The labels that name a file on the point-analysis sheet go to
    cells that do not depend on the file: labelling for one file and then
    for another leaves the workbook that labelling for the second alone
    gives, with nothing of the first file's labels in it. *)
Theorem X11_file_labels_are_overwritten wb pt_title stride first_filename
    second_filename headers :
  0 <= stride ->
  is_Some (wb_sheets wb !! pt_title) ->
  exists wb1 wb2,
    label_file wb pt_title stride first_filename 0 headers = Ok wb1 /\
    label_file wb pt_title stride second_filename 0 headers = Ok wb2 /\
    label_file wb1 pt_title stride second_filename 0 headers = Ok wb2.
Proof.
  intros Hst [cells Hcells].
  destruct (label_file_writes stride headers Hst 0) as [keys Hkeys]; [lia|].
  destruct (Hkeys first_filename) as (writes1 & Hk1 & Hrun1).
  destruct (Hkeys second_filename) as (writes2 & Hk2 & Hrun2).
  eexists _, _. split_and!.
  - by apply Hrun1.
  - by apply Hrun2.
  - rewrite (Hrun2 _ pt_title (apply_writes writes1 cells))
      by apply lookup_insert_eq.
    cbn [wb_sheetnames wb_sheets].
    rewrite insert_insert_eq, apply_writes_absorb; [done|congruence].
Qed.

End RepeatedWrites.

Section RepeatedWritesExamples.
Local Existing Instance Sample.floats.
Local Existing Instance Sample.paths.

Import ExcelFormulas Collater.

(** The formulas of the sheet Run1 for file 0, written twice. *)
Lemma X10_insert_point_analysis_formula_idempotent_witness :
  exists pt',
    insert_point_analysis_formula ∅ 2 "Run1" 0 4 ["Average"; "STD"] = Ok pt' /\
    insert_point_analysis_formula pt' 2 "Run1" 0 4 ["Average"; "STD"] = Ok pt'.
Proof.
  destruct (insert_point_analysis_loop_writes 2 "Run1" 0 4
              (cell_address 0 (1 + 0)) ["Average"; "STD"]
              ltac:(lia) ltac:(lia) ltac:(lia) 0 ltac:(lia))
    as [writes Hwrites].
  exists (apply_writes writes ∅). split; [apply Hwrites|].
  apply (X10_insert_point_analysis_formula_idempotent ∅ _ 2 "Run1" 0 4
           ["Average"; "STD"]).
  apply Hwrites.
Defined.

(** The labels of f0 and then of f1 on the fresh point-analysis sheet. *)
Lemma X11_file_labels_are_overwritten_witness :
  exists wb1 wb2,
    label_file (st_wb Sample.start) "Point Analysis" 4 "f0" 0
      ["Average"; "STD"] = Ok wb1 /\
    label_file (st_wb Sample.start) "Point Analysis" 4 "f1" 0
      ["Average"; "STD"] = Ok wb2 /\
    label_file wb1 "Point Analysis" 4 "f1" 0 ["Average"; "STD"] = Ok wb2.
Proof.
  apply (X11_file_labels_are_overwritten (st_wb Sample.start)
           "Point Analysis" 4 "f0" "f1" ["Average"; "STD"]); [lia|].
  by eexists.
Defined.

End RepeatedWritesExamples.

(** ** The scan of a sheet, column by column *)

Section ScanOfASheet.
Context `{OsPath} `{PyFloat}.

Import ExcelFormulas Collater.

(** X12.  A column whose first cell holds the target header [hdr] is
    copied: whenever the scan of the column returns, the flag is set, and
    in the destination sheet the column of the file and the header has
    "file name (hdr)" in its first row and, in each row from 1 to
    [row_count], what [get_cell_value] makes of the source cell of that
    row, read as a number with "NA()" for what is not one. *)
Theorem X12_scan_column_copies_target_column pt_title target_headers fi
    stride excel_filename sheetname sheet row_count st flag col hdr st' flag' :
  0 <= col -> 0 <= fi -> 0 <= stride ->
  wf_workbook pt_title (st_wb st) ->
  cells_getitem (ws_cells sheet) (cell_address 0 col) = Ok (VStr hdr) ->
  In hdr target_headers ->
  scan_column pt_title target_headers fi stride excel_filename sheetname
    sheet row_count (st, flag) col = Ok (st', flag') ->
  flag' = true /\
  exists h cells',
    Py.list_index hdr target_headers = Ok h /\
    wb_sheets (st_wb st') !! sheetname = Some cells' /\
    (exists a, cell_address 0 (fi + stride * h) = Some a /\
               cells' !! a
               = Some (VStr (excel_filename +:+ " (" +:+ hdr +:+ ")"))) /\
    (forall r, 1 <= r <= row_count ->
       exists a cell_data,
         cell_address r (fi + stride * h) = Some a /\
         cells_getitem (ws_cells sheet) (cell_address r col) = Ok cell_data /\
         cells' !! a = Some (coerce cell_data true ERROR_VALUE)).
Proof.
  intros Hcol Hfi Hst Hwf Hhdr Hin Hreturned.
  destruct (scan_column_target pt_title target_headers fi stride
              excel_filename sheetname sheet row_count st flag col)
    as (hdr' & h & si & st1 & cells' & Hhdr' & Hh & _ & Hrun & _ & _ & _
        & Hcells & Hhead & Hrows); [done..| |].
  { unfold is_target_column. rewrite Hhdr. cbn.
    apply existsb_exists. exists hdr. split; [done|apply String.eqb_refl]. }
  assert (hdr' = hdr) as -> by congruence.
  assert (st1 = st' /\ flag' = true) as [-> ->] by (split; congruence).
  split; [done|]. exists h, cells'. split_and!; [done..|].
  intros r Hr. destruct (Hrows r Hr) as (a & cell_data & Ha & Hget & _ & Hdst).
  by exists a, cell_data.
Qed.

(** X13.  The rows copied are 1 to [row_count] counted from 0, one more
    than the sheet has below its header when [row_count] is its
    [max_row]: a source cell in row [row_count] that reads as [None] puts
    "NA()" in row [row_count] of the destination column. *)
Theorem X13_scan_column_row_after_the_last pt_title target_headers fi stride
    excel_filename sheetname sheet row_count st flag col hdr :
  0 <= col -> 0 <= fi -> 0 <= stride -> 1 <= row_count ->
  wf_workbook pt_title (st_wb st) ->
  cells_getitem (ws_cells sheet) (cell_address 0 col) = Ok (VStr hdr) ->
  In hdr target_headers ->
  cells_getitem (ws_cells sheet) (cell_address row_count col) = Ok VNone ->
  exists h st' cells' a,
    Py.list_index hdr target_headers = Ok h /\
    scan_column pt_title target_headers fi stride excel_filename sheetname
      sheet row_count (st, flag) col = Ok (st', true) /\
    wb_sheets (st_wb st') !! sheetname = Some cells' /\
    cell_address row_count (fi + stride * h) = Some a /\
    cells' !! a = Some (VStr "NA()").
Proof.
  intros Hcol Hfi Hst Hrc Hwf Hhdr Hin Hlast.
  destruct (scan_column_target pt_title target_headers fi stride
              excel_filename sheetname sheet row_count st flag col)
    as (hdr' & h & si & st' & cells' & Hhdr' & Hh & _ & Hrun & _ & _ & _
        & Hcells & _ & Hrows); [done..| |].
  { unfold is_target_column. rewrite Hhdr. cbn.
    apply existsb_exists. exists hdr. split; [done|apply String.eqb_refl]. }
  assert (hdr' = hdr) as -> by congruence.
  destruct (Hrows row_count) as (a & cell_data & Ha & Hget & _ & Hdst); [lia|].
  assert (cell_data = VNone) as -> by congruence.
  exists h, st', cells', a. split_and!; [done..|].
  rewrite Hdst. unfold coerce. cbn.
  destruct (py_float VNone) eqn:E; [|done]. by cbn in E.
Qed.

Lemma for_each_scan_column_other pt_title target_headers fi stride
    excel_filename sheetname sheet row_count cols st flag :
  (forall c, c ∈ cols ->
     0 <= c /\ is_target_column target_headers sheet c = false) ->
  for_each (scan_column pt_title target_headers fi stride excel_filename
              sheetname sheet row_count) cols (st, flag) = Ok (st, flag).
Proof.
  induction cols as [|c cols IH]; intros Hcols; [done|].
  destruct (Hcols c) as [Hc Hother]; [by left|].
  cbn [for_each]. rewrite scan_column_other by done. cbn [mbind result_bind].
  apply IH. intros c' Hc'. apply Hcols. by right.
Qed.

(** X14.  A sheet none of whose columns has a target header leaves no
    trace: the scan returns the state it was given, whatever that state
    is; no sheet is created for it in the destination workbook and no
    formula is written. *)
Theorem X14_scan_columns_without_target pt_title target_headers fi stride
    excel_filename sheetname sheet row_count col_count st :
  (forall c, 0 <= c < col_count ->
     is_target_column target_headers sheet c = false) ->
  scan_columns pt_title target_headers fi stride excel_filename sheetname
    sheet row_count col_count st = Ok st.
Proof.
  intros Hnone. unfold scan_columns.
  rewrite for_each_scan_column_other; [done|].
  intros c Hc%elem_of_range. split; [lia|]. apply Hnone. lia.
Qed.

Lemma sheet_setitem_names wb title key v wb' :
  sheet_setitem wb title key v = Ok wb' ->
  wb_sheetnames wb' = wb_sheetnames wb.
Proof.
  unfold sheet_setitem. destruct (wb_sheets wb !! title); [|done].
  destruct (cells_setitem _ key v); cbn; [|done]. by intros [= <-].
Qed.

Lemma transfer_rows_names dst_title sheet col dst_col rows :
  forall wb wb',
    transfer_rows wb dst_title sheet col dst_col rows = Ok wb' ->
    wb_sheetnames wb' = wb_sheetnames wb.
Proof.
  induction rows as [|r rows IH]; intros wb wb'; cbn [transfer_rows].
  { by intros [= <-]. }
  destruct (get_cell_value sheet r col true ERROR_VALUE); cbn; [|done].
  destruct (sheet_setitem wb dst_title _ _) as [wb1|] eqn:E; cbn; [|done].
  intros Hrun%IH. rewrite Hrun. by apply sheet_setitem_names in E.
Qed.

Lemma call_insert_point_analysis_formula_names st pt_title si title fi stride
    target_headers st' :
  call_insert_point_analysis_formula st pt_title si title fi stride
    target_headers = Ok st' ->
  wb_sheetnames (st_wb st') = wb_sheetnames (st_wb st).
Proof.
  unfold call_insert_point_analysis_formula.
  destruct (wb_sheets (st_wb st) !! pt_title); [|done].
  destruct (insert_point_analysis_formula _ _ _ _ _ _); cbn; [|done].
  by intros [= <-].
Qed.

(** What one column does to the list of sheet names. *)
Lemma scan_column_names pt_title target_headers fi stride excel_filename
    sheetname sheet row_count st flag col st' flag' :
  scan_column pt_title target_headers fi stride excel_filename sheetname sheet
    row_count (st, flag) col = Ok (st', flag') ->
  wb_sheetnames (st_wb st')
  = if is_target_column target_headers sheet col
       && negb (existsb (String.eqb sheetname) (wb_sheetnames (st_wb st)))
    then wb_sheetnames (st_wb st) ++ [sheetname]
    else wb_sheetnames (st_wb st).
Proof.
  unfold scan_column, is_target_column.
  destruct (cells_getitem (ws_cells sheet) (cell_address 0 col))
    as [header|]; cbn [mbind result_bind]; [|done].
  destruct (py_in header target_headers); cbn [andb];
    [|by intros [= <- <-]].
  set (wb1 := if existsb (String.eqb sheetname) (wb_sheetnames (st_wb st))
              then st_wb st else create_sheet (st_wb st) sheetname).
  assert (wb_sheetnames wb1
          = if negb (existsb (String.eqb sheetname) (wb_sheetnames (st_wb st)))
            then wb_sheetnames (st_wb st) ++ [sheetname]
            else wb_sheetnames (st_wb st)) as <-.
  { subst wb1. by destruct (existsb _ _). }
  clearbody wb1.
  destruct (Py.list_index sheetname (wb_sheetnames wb1)) as [si|];
    cbn [mbind result_bind]; [|done].
  rewrite invert_always_truthy.
  destruct (call_insert_point_analysis_formula _ _ _ _ _ _ _)
    as [st1|] eqn:Hcall; cbn [mbind result_bind]; [|done].
  apply call_insert_point_analysis_formula_names in Hcall. cbn in Hcall.
  destruct (Py.list_index (py_str header) target_headers) as [h|];
    cbn [mbind result_bind]; [|done].
  destruct (sheet_setitem (st_wb st1) sheetname _ _) as [wb2|] eqn:Hset;
    cbn [mbind result_bind]; [|done].
  apply sheet_setitem_names in Hset.
  destruct (transfer_rows wb2 sheetname sheet col _ _) as [wb3|] eqn:Hrows;
    cbn [mbind result_bind]; [|done].
  apply transfer_rows_names in Hrows.
  intros [= <- <-]. cbn. congruence.
Qed.

Lemma for_each_scan_column_names pt_title target_headers fi stride
    excel_filename sheetname sheet row_count cols :
  forall st flag st' flag',
    for_each (scan_column pt_title target_headers fi stride excel_filename
                sheetname sheet row_count) cols (st, flag) = Ok (st', flag') ->
    wb_sheetnames (st_wb st')
    = if existsb (is_target_column target_headers sheet) cols
         && negb (existsb (String.eqb sheetname) (wb_sheetnames (st_wb st)))
      then wb_sheetnames (st_wb st) ++ [sheetname]
      else wb_sheetnames (st_wb st).
Proof.
  induction cols as [|c cols IH]; intros st flag st' flag'; cbn [for_each].
  { by intros [= <- <-]. }
  destruct (scan_column _ _ _ _ _ _ _ _ (st, flag) c) as [[st1 flag1]|] eqn:E;
    cbn [mbind result_bind]; [|done].
  apply scan_column_names in E. intros Hrest%IH. rewrite Hrest, E.
  cbn [existsb].
  destruct (is_target_column target_headers sheet c),
    (existsb (String.eqb sheetname) (wb_sheetnames (st_wb st))) eqn:Hin;
    cbn [andb orb negb]; rewrite ?Hin, ?andb_false_r; cbn [andb negb];
    try done.
  rewrite existsb_app. cbn. rewrite String.eqb_refl, orb_true_r.
  by rewrite andb_false_r.
Qed.

Lemma existsb_eqb_elem_of (x : string) (l : list string) :
  existsb (String.eqb x) l = true <-> x ∈ l.
Proof.
  rewrite existsb_exists. split.
  - intros (y & Hy & ->%String.eqb_eq). by apply list_elem_of_In.
  - intros Hx. exists x. split; [by apply list_elem_of_In|apply String.eqb_refl].
Qed.

(** X15.  What a scan of a sheet that returns has done to the list of
    sheet names of the destination workbook: the name of the sheet has
    been appended when the sheet has a column with a target header and the
    name was not yet in the list, and nothing else has happened to the
    list.  So a scan never puts a name into the list twice, however many
    target columns the sheet has, and a list without duplicates stays
    so. *)
Theorem X15_scan_columns_sheet_names pt_title target_headers fi stride
    excel_filename sheetname sheet row_count col_count st st' :
  scan_columns pt_title target_headers fi stride excel_filename sheetname
    sheet row_count col_count st = Ok st' ->
  wb_sheetnames (st_wb st')
  = wb_sheetnames (st_wb st)
    ++ (if existsb (is_target_column target_headers sheet)
             (Py.range 0 col_count)
           && negb (existsb (String.eqb sheetname)
                      (wb_sheetnames (st_wb st)))
        then [sheetname] else []) /\
  (NoDup (wb_sheetnames (st_wb st)) -> NoDup (wb_sheetnames (st_wb st'))).
Proof.
  intros Hrun.
  unfold scan_columns in Hrun.
  destruct (for_each _ _ _) as [[st1 flag1]|] eqn:E; [|done].
  cbn in Hrun. injection Hrun as <-.
  apply for_each_scan_column_names in E. rewrite E.
  destruct (existsb (is_target_column target_headers sheet) _); cbn [andb].
  - destruct (existsb (String.eqb sheetname) _) eqn:Hin; cbn [negb].
    + by rewrite app_nil_r.
    + split; [done|]. intros Hnodup. apply NoDup_app. split_and!; [done| |].
      * intros x Hx ->%list_elem_of_singleton.
        apply existsb_eqb_elem_of in Hx. congruence.
      * apply NoDup_singleton.
  - by rewrite app_nil_r.
Qed.

End ScanOfASheet.

Section ScanOfASheetExamples.
Local Existing Instance Sample.floats.
Local Existing Instance Sample.paths.

Import ExcelFormulas Collater.

(** Column A of the sheet with data, header Average, for file 0 of two. *)
Lemma X12_scan_column_copies_target_column_witness :
  exists st' flag',
    scan_column "Point Analysis" ["Average"; "STD"] 0 4 "f0" "Run1"
      Sample.with_data 3 (Sample.start, false) 0 = Ok (st', flag') /\
    flag' = true /\
    exists h cells',
    Py.list_index "Average" ["Average"; "STD"] = Ok h /\
    wb_sheets (st_wb st') !! "Run1" = Some cells' /\
    (exists a, cell_address 0 (0 + 4 * h) = Some a /\
               cells' !! a = Some (VStr ("f0" +:+ " (" +:+ "Average" +:+ ")"))) /\
    (forall r, 1 <= r <= 3 ->
       exists a cell_data,
         cell_address r (0 + 4 * h) = Some a /\
         cells_getitem (ws_cells Sample.with_data) (cell_address r 0)
         = Ok cell_data /\
         cells' !! a = Some (coerce cell_data true ERROR_VALUE)).
Proof.
  destruct (scan_column_target "Point Analysis" ["Average"; "STD"] 0 4 "f0"
              "Run1" Sample.with_data 3 Sample.start false 0)
    as (_ & _ & _ & st' & _ & _ & _ & _ & Hrun & _);
    [lia|lia|lia|apply wf_workbook_fresh|reflexivity|].
  exists st', true. split; [exact Hrun|].
  apply (X12_scan_column_copies_target_column "Point Analysis"
           ["Average"; "STD"] 0 4 "f0" "Run1" Sample.with_data 3 Sample.start
           false 0 "Average" st' true);
    [lia|lia|lia|apply wf_workbook_fresh|reflexivity|by left|exact Hrun].
Defined.

(** The sheet with data has three rows; row 3 counted from 0 is the fourth
    and is empty. *)
Lemma X13_scan_column_row_after_the_last_witness :
  exists h st' cells' a,
    Py.list_index "Average" ["Average"; "STD"] = Ok h /\
    scan_column "Point Analysis" ["Average"; "STD"] 0 4 "f0" "Run1"
      Sample.with_data 3 (Sample.start, false) 0 = Ok (st', true) /\
    wb_sheets (st_wb st') !! "Run1" = Some cells' /\
    cell_address 3 (0 + 4 * h) = Some a /\
    cells' !! a = Some (VStr "NA()").
Proof.
  apply (X13_scan_column_row_after_the_last "Point Analysis"
           ["Average"; "STD"] 0 4 "f0" "Run1" Sample.with_data 3 Sample.start
           false 0 "Average"); [lia|lia|lia|lia| |reflexivity|by left|reflexivity].
  apply wf_workbook_fresh.
Defined.

(** A sheet whose only cell holds an error marker has no target header. *)
Lemma X14_scan_columns_without_target_witness :
  scan_columns "Point Analysis" ["Average"; "STD"] 0 4 "f0" "Run1"
    (Sample.marker_sheet "#DIV/0!") 1 1 Sample.start = Ok Sample.start.
Proof.
  apply (X14_scan_columns_without_target "Point Analysis" ["Average"; "STD"]
           0 4 "f0" "Run1" (Sample.marker_sheet "#DIV/0!") 1 1 Sample.start).
  intros c Hc. assert (c = 0) as -> by lia. reflexivity.
Defined.

(** The sheet Run1 scanned from the fresh workbook: its name is added. *)
Lemma X15_scan_columns_sheet_names_witness :
  exists st',
    scan_columns "Point Analysis" ["Average"; "STD"] 0 4 "f0" "Run1"
      Sample.run1 1 2 Sample.start = Ok st' /\
    wb_sheetnames (st_wb st')
    = wb_sheetnames (st_wb Sample.start)
      ++ (if existsb (is_target_column ["Average"; "STD"] Sample.run1)
               (Py.range 0 2)
             && negb (existsb (String.eqb "Run1")
                        (wb_sheetnames (st_wb Sample.start)))
          then ["Run1"] else []) /\
    (NoDup (wb_sheetnames (st_wb Sample.start)) ->
     NoDup (wb_sheetnames (st_wb st'))).
Proof.
  destruct (scan_columns_calls "Point Analysis" ["Average"; "STD"] 0 4 "f0"
              "Run1" Sample.run1 1 2 Sample.start)
    as (st' & Hrun & _); [lia|lia|apply wf_workbook_fresh|].
  exists st'. split; [exact Hrun|].
  apply (X15_scan_columns_sheet_names "Point Analysis" ["Average"; "STD"] 0 4
           "f0" "Run1" Sample.run1 1 2 Sample.start st').
  exact Hrun.
Defined.

End ScanOfASheetExamples.

(** ** The charts *)

Section Charts.

(** X16.  The column at which the chart of a header block is anchored is
    never a column that holds data of a file: it is the first of the two
    columns left free after the [n_files] data columns of the block. *)
Theorem X16_chart_anchor_is_no_data_column (n_files f h i : Z) :
  0 <= f < n_files ->
  Collater.offset f h n_files <> chart_location_col n_files i.
Proof.
  unfold Collater.offset, chart_location_col. intros Hf E.
  assert ((n_files + 2) * (h - i) = n_files - f) as E' by lia.
  assert (h - i <= 0 \/ 1 <= h - i) as [Hle|Hge] by lia; nia.
Qed.

(** X17.  The list of columns handed to the chart of a header block does
    not name the columns of the block: it is the number 1, once for every
    file, whatever the block. *)
Theorem X17_chart_cols_are_all_one (n_files i : Z) :
  chart_cols n_files i = replicate (Z.to_nat n_files) 1.
Proof.
  unfold chart_cols, Py.range.
  rewrite (const_fmap _ _ 1) by done. rewrite length_seqZ.
  f_equal. lia.
Qed.

End Charts.

Section ChartsExamples.

(** Three files: the second data column of block 1 and the anchor of
    block 1. *)
Lemma X16_chart_anchor_is_no_data_column_witness :
  Collater.offset 1 1 3 <> chart_location_col 3 1.
Proof.
  apply (X16_chart_anchor_is_no_data_column 3 1 1 1). lia.
Defined.

End ChartsExamples.

(** ** Rows written with [write_openpyxl_row] *)

Section RowWriter.
Context `{OsPath} `{PyFloat}.

Import ExcelFormulas Formulas.

Lemma write_openpyxl_row_loop_spec row_no col_no contents :
  0 <= row_no ->
  forall idx worsksheet,
    0 <= col_no + idx ->
    exists worsksheet',
      write_openpyxl_row_loop worsksheet row_no col_no idx contents
      = Ok worsksheet' /\
      (forall (i : nat) v,
         contents !! i = Some v ->
         exists a,
           cell_address row_no (col_no + idx + Z.of_nat i) = Some a /\
           worsksheet' !! a
           = Some (match v with VNone => VStr "" | _ => v end)) /\
      (forall k,
         (forall i : nat, (i < length contents)%nat ->
            cell_address row_no (col_no + idx + Z.of_nat i) <> Some k) ->
         worsksheet' !! k = worsksheet !! k).
Proof.
  intros Hrow. induction contents as [|v rest IH]; intros idx ws Hcol.
  { exists ws. split_and!; [done| |done]. intros i v Hi. by destruct i. }
  destruct (cell_address_is_some row_no (col_no + idx) Hrow Hcol) as [a Ha].
  destruct (IH (idx + 1)
              (<[a := match v with VNone => VStr "" | _ => v end]> ws))
    as (ws' & Hrun & Hwritten & Hframe); [lia|].
  exists ws'. split_and!.
  - cbn [write_openpyxl_row_loop]. rewrite Ha. cbn. exact Hrun.
  - intros [|i] v' Hi.
    + injection Hi as <-. exists a. rewrite Z.add_0_r. split; [done|].
      rewrite Hframe; [apply lookup_insert_eq|].
      intros j Hj E. rewrite <- Ha in E.
      apply cell_address_inj in E as [_ E]; lia.
    + destruct (Hwritten i v' Hi) as (a' & Ha' & Hv').
      exists a'. split; [|done]. rewrite <- Ha'. f_equal. lia.
  - intros k Hk. rewrite Hframe.
    + rewrite lookup_insert_ne; [done|]. intros ->.
      apply (Hk 0%nat); [cbn; lia|]. by rewrite Z.add_0_r.
    + intros i Hi E. apply (Hk (S i)); [cbn; lia|].
      rewrite <- E. f_equal. lia.
Qed.

Lemma cell_address_some_nonneg (row col : Z) (a : string) :
  cell_address row col = Some a -> 0 <= row /\ 0 <= col.
Proof.
  intros Ha.
  destruct (Z.lt_ge_cases row 0); [by rewrite cell_address_negative in Ha by lia|].
  destruct (Z.lt_ge_cases col 0); [by rewrite cell_address_negative in Ha by lia|].
  lia.
Qed.

(** X18.  A row written at [(row_no, col_no)]: whenever the call returns,
    the [i]-th value of the contents is in the cell of column
    [col_no + i] of the row, with the empty text in place of [None], and
    every cell that is not one of these keeps what it had. *)
Theorem X18_write_openpyxl_row worsksheet worsksheet' row_no col_no contents :
  write_openpyxl_row worsksheet row_no col_no contents = Ok worsksheet' ->
  (forall (i : nat) v,
     contents !! i = Some v ->
     exists a,
       cell_address row_no (col_no + Z.of_nat i) = Some a /\
       worsksheet' !! a
       = Some (match v with VNone => VStr "" | _ => v end)) /\
  (forall k,
     (forall i : nat, (i < length contents)%nat ->
        cell_address row_no (col_no + Z.of_nat i) <> Some k) ->
     worsksheet' !! k = worsksheet !! k).
Proof.
  unfold write_openpyxl_row. intros Hreturned.
  destruct contents as [|v rest].
  { injection Hreturned as <-. split; [|done]. intros i v Hi. by destruct i. }
  assert (0 <= row_no /\ 0 <= col_no) as [Hrow Hcol].
  { cbn [write_openpyxl_row_loop] in Hreturned.
    destruct (cell_address row_no (col_no + 0)) as [a|] eqn:Ha; [|done].
    apply cell_address_some_nonneg in Ha. lia. }
  destruct (write_openpyxl_row_loop_spec row_no col_no (v :: rest) Hrow 0
              worsksheet) as (ws' & Hrun & Hwritten & Hframe); [lia|].
  assert (ws' = worsksheet') as -> by congruence.
  split.
  - intros i v' Hi. destruct (Hwritten i v' Hi) as (a & Ha & Hv).
    exists a. by rewrite Z.add_0_r in Ha.
  - intros k Hk. apply Hframe. intros i Hi. rewrite Z.add_0_r. by apply Hk.
Qed.

(** X19.  A row or a first column below zero has no address: with
    something to write the call raises the [TypeError] of the indexing and
    writes nothing; with nothing to write it returns the sheet as it
    was. *)
Theorem X19_write_openpyxl_row_negative worsksheet row_no col_no v rest :
  row_no < 0 \/ col_no < 0 ->
  write_openpyxl_row worsksheet row_no col_no (v :: rest) = Raise TypeError /\
  write_openpyxl_row worsksheet row_no col_no [] = Ok worsksheet.
Proof.
  intros Hneg. split; [|done].
  unfold write_openpyxl_row. cbn [write_openpyxl_row_loop].
  rewrite cell_address_negative; [done|lia].
Qed.

End RowWriter.

Section RowWriterExamples.
Local Existing Instance Sample.floats.
Local Existing Instance Sample.paths.

Import ExcelFormulas Formulas.

(** A number, nothing and a text written from B3 on. *)
Lemma X18_write_openpyxl_row_witness :
  exists worsksheet',
    write_openpyxl_row ∅ 2 1 [VInt 7; VNone; VStr "x"] = Ok worsksheet' /\
    (forall (i : nat) v,
       [VInt 7; VNone; VStr "x"] !! i = Some v ->
       exists a,
         cell_address 2 (1 + Z.of_nat i) = Some a /\
         worsksheet' !! a
         = Some (match v with VNone => VStr "" | _ => v end)) /\
    (forall k,
       (forall i : nat, (i < length [VInt 7; VNone; VStr "x"])%nat ->
          cell_address 2 (1 + Z.of_nat i) <> Some k) ->
       worsksheet' !! k = (∅ : gmap string value) !! k).
Proof.
  destruct (write_openpyxl_row_loop_spec 2 1 [VInt 7; VNone; VStr "x"]
              ltac:(lia) 0 ∅ ltac:(lia)) as (worsksheet' & Hrun & _).
  exists worsksheet'. split; [exact Hrun|].
  apply (X18_write_openpyxl_row ∅ worsksheet' 2 1 [VInt 7; VNone; VStr "x"]).
  exact Hrun.
Defined.

(** Row -1. *)
Lemma X19_write_openpyxl_row_negative_witness :
  write_openpyxl_row ∅ (-1) 0 [VInt 7] = Raise TypeError /\
  write_openpyxl_row ∅ (-1) 0 [] = Ok ∅.
Proof.
  apply (X19_write_openpyxl_row_negative ∅ (-1) 0 (VInt 7) []). lia.
Defined.

End RowWriterExamples.

(** ** Ranges *)

Section Ranges.
Context `{OsPath} `{PyFloat}.

Import ExcelFormulas Formulas.

(** An address with or without dollar signs reads back as its cell. *)
Lemma xl_rowcol_to_cell_parses (row col : Z) (row_abs col_abs : bool) :
  0 <= row -> 0 <= col < 18278 ->
  exists a,
    Xlsx.xl_rowcol_to_cell row col row_abs col_abs = Some a /\
    Xlsx.xl_cell_to_rowcol a = Ok (row, col).
Proof.
  intros Hr Hc.
  destruct (cell_address_parts row col) as (l & d & E & P & Hlen); [lia..|].
  specialize (Hlen ltac:(lia)).
  rewrite cell_address_some in E by lia. injection E as E.
  assert (l = Xlsx.col_letters (Xlsx.col_fuel (col + 1)) (col + 1) ""
          /\ d = Py.str_of_int (row + 1)) as [-> ->].
  { destruct P as [Pu Pd _ _ _ _].
    pose proof (col_letters_upper (Xlsx.col_fuel (col + 1)) (col + 1)) as Hu.
    pose proof (str_of_int_digits (row + 1) ltac:(lia)) as Hd.
    assert (Xlsx.span Xlsx.is_upper (l +:+ d) = (l, d)) as S1
      by (apply span_app; auto using stops_upper_digits).
    rewrite <- E, span_app in S1 by auto using stops_upper_digits.
    by injection S1 as <- <-. }
  rewrite xl_rowcol_to_cell_abs by lia. eexists. split; [done|].
  by apply xl_cell_to_rowcol_abs.
Qed.

(** X20.  The two ends of a row range: for rows [>= 0] and a column from
    0 to 18277 the formula is an equals sign, the sheet name in
    apostrophes and an exclamation mark if there is one, and two addresses
    around a colon that read back as [(start_row_no, col_no)] and
    [(end_row_no, col_no)].  Nothing asks the start to be above the
    end. *)
Theorem X20_get_excel_row_range_ends (start_row_no end_row_no col_no : Z)
    (sheet_name : string) :
  0 <= start_row_no -> 0 <= end_row_no -> 0 <= col_no < 18278 ->
  exists start_address end_address,
    get_excel_row_range start_row_no end_row_no col_no sheet_name
    = (if String.eqb sheet_name "" then "="
       else "='" +:+ sheet_name +:+ "'!")
        +:+ start_address +:+ ":" +:+ end_address /\
    Xlsx.xl_cell_to_rowcol start_address = Ok (start_row_no, col_no) /\
    Xlsx.xl_cell_to_rowcol end_address = Ok (end_row_no, col_no).
Proof.
  intros Hs He Hc.
  destruct (xl_rowcol_to_cell_parses start_row_no col_no true true Hs Hc)
    as (a1 & Ha1 & Hp1).
  destruct (xl_rowcol_to_cell_parses end_row_no col_no true true He Hc)
    as (a2 & Ha2 & Hp2).
  exists a1, a2. split_and!; [|done..].
  unfold get_excel_row_range, convert_to_excel_address.
  cbn [String.eqb negb]. rewrite Ha1, Ha2. cbn [Py.fmt].
  destruct (String.eqb sheet_name ""); cbn [negb]; [done|].
  by rewrite !str_app_assoc.
Qed.

(** X21.  A start row or a column below zero is not refused: the formula
    is returned with the text None where the start address should be. *)
Theorem X21_get_excel_row_range_negative (start_row_no end_row_no col_no : Z)
    (sheet_name : string) :
  start_row_no < 0 \/ col_no < 0 ->
  get_excel_row_range start_row_no end_row_no col_no sheet_name
  = (if String.eqb sheet_name "" then "="
     else "='" +:+ sheet_name +:+ "'!")
      +:+ "None:"
      +:+ Py.fmt (Xlsx.xl_rowcol_to_cell end_row_no col_no true true).
Proof.
  intros Hneg.
  unfold get_excel_row_range, convert_to_excel_address.
  cbn [String.eqb negb].
  assert (Xlsx.xl_rowcol_to_cell start_row_no col_no true true = None) as ->.
  { unfold Xlsx.xl_rowcol_to_cell.
    destruct (Z.ltb_spec start_row_no 0); [done|].
    destruct (Z.ltb_spec col_no 0); [done|lia]. }
  cbn [Py.fmt].
  destruct (String.eqb sheet_name ""); cbn [negb];
    by rewrite ?str_app_assoc, ?str_app_cons, ?str_app_nil_l.
Qed.


End Ranges.

Section RangesExamples.
Local Existing Instance Sample.floats.
Local Existing Instance Sample.paths.

Import ExcelFormulas Formulas.

(** Rows 2 to 11 of column C of the sheet Run1. *)
Lemma X20_get_excel_row_range_ends_witness :
  exists start_address end_address,
    get_excel_row_range 1 10 2 "Run1"
    = (if String.eqb "Run1" "" then "=" else "='" +:+ "Run1" +:+ "'!")
        +:+ start_address +:+ ":" +:+ end_address /\
    Xlsx.xl_cell_to_rowcol start_address = Ok (1, 2) /\
    Xlsx.xl_cell_to_rowcol end_address = Ok (10, 2).
Proof.
  apply (X20_get_excel_row_range_ends 1 10 2 "Run1"); lia.
Defined.

(** A range that starts in row -1. *)
Lemma X21_get_excel_row_range_negative_witness :
  get_excel_row_range (-1) 10 2 ""
  = (if String.eqb "" "" then "=" else "='" +:+ "" +:+ "'!")
      +:+ "None:" +:+ Py.fmt (Xlsx.xl_rowcol_to_cell 10 2 true true).
Proof.
  apply (X21_get_excel_row_range_negative (-1) 10 2 ""). lia.
Defined.

End RangesExamples.

Section ColumnRangeExamples.

Import Formulas.


End ColumnRangeExamples.

(** ** The saved file and the next run *)

Section SavedFile.
Context `{OsJoin}.

Import Folder.

(** X23.  The collated workbook is saved in the folder the source files
    are read from, under a name with the extension of the source files:
    once it is listed in the folder, [get_excel_files_from_folder] returns
    it among the files to collate. *)
Theorem X23_saved_file_is_a_source_file (listdir : list string)
    (root_folder : string) :
  In ("-" +:+ COLLATER_EXCEL_FILENAME) listdir ->
  In (destination_path root_folder)
     (get_excel_files_from_folder listdir root_folder).
Proof.
  intros Hin.
  unfold get_excel_files_from_folder, get_files_from_folder, destination_path.
  apply in_map, filter_In. split; [done|].
  apply endswith_spec. by exists "-Cumulative".
Qed.

End SavedFile.

Section SavedFileExamples.
Local Existing Instance posix_join.

Import Folder.

(** The folder data after a first run over f0.xlsx. *)
Lemma X23_saved_file_is_a_source_file_witness :
  In (destination_path "data")
     (get_excel_files_from_folder ["f0.xlsx"; "-Cumulative.xlsx"] "data").
Proof.
  apply (X23_saved_file_is_a_source_file ["f0.xlsx"; "-Cumulative.xlsx"]
           "data").
  right. left. reflexivity.
Defined.

End SavedFileExamples.
